(** * InsidertradingBot: the trading engine of [trading_bot.py]

    A shallow embedding of [record_trade], of [scrape_openinsider] from the
    table rows on, of the [TradingBot] class (__init__, get_budget,
    buy_stock, sell_stock, monitor_prices, get_current_price,
    filter_significant_transactions, is_market_open, run_trading_cycle,
    stop), and of [run_bot] and [index] of [app.py].

    Modelling choices.
    - Numbers.  The program computes with binary64 floats, and the file
      embeds it twice.  The first embedding takes prices, budget, thresholds
      and percentages as exact rationals ([Q]) and share counts as integers
      ([Z]); [int(x)] truncates toward zero and [a / b] raises
      [ZeroDivisionError] on a zero divisor.  It carries the properties of
      state, control flow, locking and comparison, which do not depend on
      how a product, quotient or sum is rounded.  Module [F64] embeds
      [buy_stock], [sell_stock], the body of the loop of [monitor_prices],
      [filter_significant_transactions] and [index] over binary64 numbers,
      with the roundings, infinities and nans of the program; the properties
      that depend on them (the number of shares bought and the budget left,
      the sums and the average of the filter, gain and drop) are stated
      there.
    - Dicts.  [self.positions] and [insider_data] are association lists in
      insertion order, the order in which Python iterates them.
    - Effects.  The bot's attributes, the module globals [trade_history] and
      [lock], and the list of orders handed to the broker form one record
      [bot]; every method is a function [bot -> outcome], written in a small
      state-and-exception monad.
    - Broker.  The answers of the brokerage API, of the wall clock and of the
      control surface's [stop] are a script [world], indexed by the number of
      external interactions made so far ([tick]).
    - Lock.  [lock = threading.Lock()] is not reentrant: acquiring it while
      it is held blocks the thread for good ([Blocked]).
    - Loops.  The two [while] loops take fuel; [OutOfFuel] marks a run cut
      short by the fuel, not by the program.
    - Builtins.  [str.strip], [str.isdigit], [float], [int] on text and
      [round] are parameters of the scraper and of the dashboard, and [sum]
      on floats, which CPython changed in 3.12, is a parameter of the filter
      of [F64]; what is proved about them holds for every choice. *)

From Stdlib Require Import List Ascii String ZArith QArith Qround Bool Lia Lqa
  Floats.
Import ListNotations.

Set Warnings "-inexact-float".

Local Open Scope string_scope.
Local Open Scope list_scope.

(** ** Python numbers *)

Module Py.

(** [int(x)] for a number [x]: truncation toward zero. *)
Definition int (x : Q) : Z := Z.quot (Qnum x) (Zpos (Qden x)).

(** [a / b]; [None] stands for [ZeroDivisionError]. *)
Definition truediv (a b : Q) : option Q :=
  if Qeq_bool b 0 then None else Some (a / b)%Q.

(** [a >= b] and [a > b]. *)
Definition ge (a b : Q) : bool := Qle_bool b a.
Definition gt (a b : Q) : bool := negb (Qle_bool a b).

(** [sum(xs)]: starts from 0 and adds from the left. *)
Definition sum (xs : list Q) : Q := fold_left Qplus xs 0%Q.

(** [len(xs)] as a number. *)
Definition len {A : Type} (xs : list A) : Q := inject_Z (Z.of_nat (List.length xs)).

(** [len(set(xs))] for strings. *)
Definition len_set (xs : list string) : Q := len (nodup string_dec xs).

End Py.

(** ** Dicts in insertion order *)

Section Dict.
Context {V : Type}.

Definition dict := list (string * V).

Fixpoint dict_get (d : dict) (k : string) : option V :=
  match d with
  | [] => None
  | (k', v) :: d' => if String.eqb k k' then Some v else dict_get d' k
  end.

(** [k in d] *)
Definition dict_mem (d : dict) (k : string) : bool :=
  match dict_get d k with Some _ => true | None => false end.

(** [d[k] = v]: overwrite in place, or append a new key at the end. *)
Fixpoint dict_set (d : dict) (k : string) (v : V) : dict :=
  match d with
  | [] => [(k, v)]
  | (k', v') :: d' =>
      if String.eqb k k' then (k', v) :: d' else (k', v') :: dict_set d' k v
  end.

(** [del d[k]] *)
Fixpoint dict_del (d : dict) (k : string) : dict :=
  match d with
  | [] => []
  | (k', v') :: d' =>
      if String.eqb k k' then d' else (k', v') :: dict_del d' k
  end.

Definition dict_keys (d : dict) : list string := map fst d.

End Dict.

Arguments dict V : clear implicits.

(** ** Data *)

(** One row of the insider table, as [scrape_openinsider] builds it. *)
Record transaction := {
  company_name : string;
  insider_name : string;
  title : string;
  trade_type : string;
  price : Q;
  qty : Z;
  own_change : Q;
  total_value : Q
}.

(** A value of [self.positions]. *)
Record position := {
  quantity : Z;
  buy_price : Q;
  highest_price : Q
}.

(** An entry of [trade_history]. *)
Record trade := {
  tr_type : string;
  tr_ticker : string;
  tr_quantity : Z;
  tr_price : Q;
  tr_date : string
}.

(** The keyword arguments of [self.api.submit_order]. *)
Record order := {
  symbol : string;
  order_qty : Z;
  side : string;
  order_type : string;
  time_in_force : string
}.

Inductive exn :=
| ZeroDivisionError
| KeyError
| RuntimeError      (* dictionary changed size during iteration *)
| BrokerError.      (* whatever the brokerage client raises *)

(** The constants read from config.json. *)
Record config := {
  MIN_VALUE : Q;
  MIN_INSIDERS : Q;
  GAIN_THRESHOLD : Q;
  DROP_THRESHOLD : Q;
  MIN_OWN_CHANGE : Q
}.

(** The environment: what the n-th external interaction answers. *)
Record world := {
  submit_order_ok : nat -> order -> bool;       (* false: the call raises *)
  get_bars_close : nat -> string -> option Q;   (* None: the call raises *)
  get_clock_is_open : nat -> option bool;       (* None: the call raises *)
  datetime_now : nat -> string;
  stop_requested : nat -> bool                  (* stop() ran during a sleep *)
}.

(** The program state. *)
Record bot := {
  budget : Q;
  positions : dict position;
  is_running : bool;
  trade_history : list trade;
  lock_held : bool;
  submitted : list order;    (* orders handed to submit_order, oldest first *)
  tick : nat
}.

Definition set_budget (b : Q) (s : bot) : bot :=
  {| budget := b; positions := positions s; is_running := is_running s;
     trade_history := trade_history s; lock_held := lock_held s;
     submitted := submitted s; tick := tick s |}.

Definition set_positions (p : dict position) (s : bot) : bot :=
  {| budget := budget s; positions := p; is_running := is_running s;
     trade_history := trade_history s; lock_held := lock_held s;
     submitted := submitted s; tick := tick s |}.

Definition set_is_running (r : bool) (s : bot) : bot :=
  {| budget := budget s; positions := positions s; is_running := r;
     trade_history := trade_history s; lock_held := lock_held s;
     submitted := submitted s; tick := tick s |}.

Definition set_trade_history (h : list trade) (s : bot) : bot :=
  {| budget := budget s; positions := positions s; is_running := is_running s;
     trade_history := h; lock_held := lock_held s;
     submitted := submitted s; tick := tick s |}.

Definition set_lock_held (l : bool) (s : bot) : bot :=
  {| budget := budget s; positions := positions s; is_running := is_running s;
     trade_history := trade_history s; lock_held := l;
     submitted := submitted s; tick := tick s |}.

Definition set_submitted (o : list order) (s : bot) : bot :=
  {| budget := budget s; positions := positions s; is_running := is_running s;
     trade_history := trade_history s; lock_held := lock_held s;
     submitted := o; tick := tick s |}.

Definition next_tick (s : bot) : bot :=
  {| budget := budget s; positions := positions s; is_running := is_running s;
     trade_history := trade_history s; lock_held := lock_held s;
     submitted := submitted s; tick := S (tick s) |}.

(** ** The monad *)

Inductive outcome (A : Type) :=
| Ret (a : A) (s : bot)        (* returned normally *)
| Raise (e : exn) (s : bot)    (* an exception is propagating *)
| Blocked (s : bot)            (* waiting for a lock that is never released *)
| OutOfFuel (s : bot).

Arguments Ret {A} a s.
Arguments Raise {A} e s.
Arguments Blocked {A} s.
Arguments OutOfFuel {A} s.

Definition final_state {A : Type} (o : outcome A) : bot :=
  match o with
  | Ret _ s | Raise _ s | Blocked s | OutOfFuel s => s
  end.

Definition M (A : Type) := bot -> outcome A.

Definition ret {A : Type} (a : A) : M A := fun s => Ret a s.

Definition bind {A B : Type} (m : M A) (k : A -> M B) : M B :=
  fun s =>
    match m s with
    | Ret a s' => k a s'
    | Raise e s' => Raise e s'
    | Blocked s' => Blocked s'
    | OutOfFuel s' => OutOfFuel s'
    end.

Definition raise {A : Type} (e : exn) : M A := fun s => Raise e s.

Definition get : M bot := fun s => Ret s s.

Definition modify (f : bot -> bot) : M unit := fun s => Ret tt (f s).

(** [try: m  except Exception as e: h e] *)
Definition try_except {A : Type} (m : M A) (h : exn -> M A) : M A :=
  fun s =>
    match m s with
    | Raise e s' => h e s'
    | o => o
    end.

(** [with lock: m] for the non-reentrant module lock. *)
Definition with_lock {A : Type} (m : M A) : M A :=
  fun s =>
    if lock_held s then Blocked s
    else
      match m (set_lock_held true s) with
      | Ret a s' => Ret a (set_lock_held false s')
      | Raise e s' => Raise e (set_lock_held false s')
      | o => o
      end.

(** A partial Python operation lifted into the monad. *)
Definition or_raise {A : Type} (e : exn) (o : option A) : M A :=
  match o with
  | Some a => ret a
  | None => raise e
  end.

Declare Scope py_scope.
Delimit Scope py_scope with py.
Notation "x <- m ;; k" := (bind m (fun x => k))
  (at level 61, m at next level, right associativity) : py_scope.
Notation "m ;; k" := (bind m (fun _ => k))
  (at level 61, right associativity) : py_scope.
Local Open Scope py_scope.

(** ** The program *)

(** Every order of the bot is a market order, good till cancelled. *)
Definition market_order (symbol : string) (qty : Z) (side : string) : order :=
  {| symbol := symbol; order_qty := qty; side := side;
     order_type := "market"; time_in_force := "gtc" |}.

Section TradingBot.

Variable cfg : config.
Variable w : world.

(** *** External calls: each consumes one entry of the script *)

(** [self.api.submit_order(symbol=.., qty=.., side=.., type="market",
    time_in_force="gtc")] *)
Definition api_submit_order (symbol : string) (qty : Z) (side : string)
  : M unit :=
  fun s =>
    let o := market_order symbol qty side in
    let s' := next_tick (set_submitted (submitted s ++ [o]) s) in
    if submit_order_ok w (tick s) o then Ret tt s' else Raise BrokerError s'.

(** [self.api.get_bars(ticker, "minute", limit=1).df.iloc[0].c] *)
Definition api_get_bars (ticker : string) : M Q :=
  fun s =>
    match get_bars_close w (tick s) ticker with
    | Some c => Ret c (next_tick s)
    | None => Raise BrokerError (next_tick s)
    end.

(** [self.api.get_clock().is_open] *)
Definition api_get_clock : M bool :=
  fun s =>
    match get_clock_is_open w (tick s) with
    | Some b => Ret b (next_tick s)
    | None => Raise BrokerError (next_tick s)
    end.

(** [datetime.now().strftime(..)] *)
Definition now : M string :=
  fun s => Ret (datetime_now w (tick s)) (next_tick s).

(** [time.sleep(n)]: the only place where the model lets the control
    surface's [stop()] take effect. *)
Definition time_sleep (n : Z) : M unit :=
  fun s =>
    let s' := next_tick s in
    Ret tt (if stop_requested w (tick s) then set_is_running false s' else s').

(** *** record_trade *)

Definition record_trade (trade_type ticker : string) (quantity : Z) (price : Q)
  : M unit :=
  date <- now ;;
  let trade := {| tr_type := trade_type; tr_ticker := ticker;
                  tr_quantity := quantity; tr_price := price;
                  tr_date := date |} in
  with_lock (modify (fun s => set_trade_history (trade_history s ++ [trade]) s)).

(** *** TradingBot.get_current_price *)

Definition get_current_price (ticker : string) : M Q :=
  try_except (api_get_bars ticker) (fun _ => ret 0%Q).

(** *** TradingBot.is_market_open *)

Definition is_market_open : M bool :=
  try_except api_get_clock (fun _ => ret false).

(** *** TradingBot.buy_stock *)

Definition buy_stock (ticker : string) (price : Q) (max_position_size : Q)
  : M unit :=
  s <- get ;;
  if dict_mem (positions s) ticker then ret tt
  else
    let max_spend := (budget s * max_position_size)%Q in
    buying_power <- or_raise ZeroDivisionError (Py.truediv max_spend price) ;;
    let quantity := Py.int buying_power in
    if (quantity >? 0)%Z then
      try_except
        (api_submit_order ticker quantity "buy" ;;
         with_lock
           (modify (fun s =>
              set_positions
                (dict_set (positions s) ticker
                   {| quantity := quantity; buy_price := price;
                      highest_price := price |}) s) ;;
            modify (fun s =>
              set_budget (budget s - inject_Z quantity * price)%Q s)) ;;
         record_trade "buy" ticker quantity price)
        (fun _ => ret tt)
    else ret tt.

(** *** TradingBot.sell_stock *)

(** The body of the [with lock:] block of sell_stock. *)
Definition sell_commit (ticker : string) (quantity : Z) : M unit :=
  p <- get_current_price ticker ;;
  modify (fun s => set_budget (budget s + inject_Z quantity * p)%Q s) ;;
  p' <- get_current_price ticker ;;
  record_trade "sell" ticker quantity p' ;;
  s <- get ;;
  if dict_mem (positions s) ticker
  then modify (set_positions (dict_del (positions s) ticker))
  else raise KeyError.

Definition sell_stock (ticker : string) : M unit :=
  s <- get ;;
  match dict_get (positions s) ticker with
  | None => ret tt
  | Some info =>
      let quantity := quantity info in
      try_except
        (api_submit_order ticker quantity "sell" ;;
         with_lock (sell_commit ticker quantity))
        (fun _ => ret tt)
  end.

(** *** TradingBot.monitor_prices *)

(** [self.positions[ticker]["highest_price"] = current_price] *)
Definition set_highest_price (ticker : string) (current_price : Q) : M unit :=
  s <- get ;;
  match dict_get (positions s) ticker with
  | None => raise KeyError
  | Some info =>
      modify (set_positions
                (dict_set (positions s) ticker
                   {| quantity := quantity info; buy_price := buy_price info;
                      highest_price := current_price |}))
  end.

(** The body of [for ticker, info in self.positions.items()]. *)
Definition monitor_position (gain_threshold drop_threshold : Q)
    (ticker : string) (info : position) : M unit :=
  current_price <- get_current_price ticker ;;
  let buy_price := buy_price info in
  let highest_price := highest_price info in
  g <- or_raise ZeroDivisionError
         (Py.truediv (current_price - buy_price)%Q buy_price) ;;
  let gain := (g * 100)%Q in
  (if Py.gt current_price highest_price
   then with_lock (set_highest_price ticker current_price)
   else ret tt) ;;
  if Py.ge gain gain_threshold then
    d <- or_raise ZeroDivisionError
           (Py.truediv (highest_price - current_price)%Q highest_price) ;;
    let drop := (d * 100)%Q in
    if Py.ge drop drop_threshold then sell_stock ticker else ret tt
  else ret tt.

(** Iteration over [self.positions.items()]: before each step the
    iterator compares the dict's size with the size at its creation. *)
Fixpoint for_items (todo size0 i : nat) (body : string -> position -> M unit)
  : M unit :=
  fun s =>
    if Nat.eqb (List.length (positions s)) size0 then
      match todo, nth_error (positions s) i with
      | S todo', Some (ticker, info) =>
          (body ticker info ;; for_items todo' size0 (S i) body) s
      | _, _ => Ret tt s
      end
    else Raise RuntimeError s.

(** One pass of the [while] body of monitor_prices. *)
Definition monitor_poll (gain_threshold drop_threshold : Q) : M unit :=
  open <- is_market_open ;;
  (if open : bool then
     s <- get ;;
     let n := List.length (positions s) in
     for_items n n 0 (monitor_position gain_threshold drop_threshold)
   else ret tt) ;;
  time_sleep 60.

Fixpoint monitor_prices (fuel : nat) (gain_threshold drop_threshold : Q)
  : M unit :=
  fun s =>
    if negb (Nat.eqb (List.length (positions s)) 0) && is_running s then
      match fuel with
      | O => OutOfFuel s
      | S fuel' =>
          (monitor_poll gain_threshold drop_threshold ;;
           monitor_prices fuel' gain_threshold drop_threshold) s
      end
    else Ret tt s.

(** *** TradingBot.filter_significant_transactions *)

Inductive result (A : Type) :=
| Ok (a : A)
| Err (e : exn).

Arguments Ok {A} a.
Arguments Err {A} e.

Fixpoint filter_loop (items : dict (list transaction))
    (min_value min_insiders min_own_change : Q)
    (significant_stocks : list string) : result (list string) :=
  match items with
  | [] => Ok significant_stocks
  | (ticker, transactions) :: rest =>
      let total_value := Py.sum (map total_value transactions) in
      let unique_insiders := Py.len_set (map insider_name transactions) in
      match Py.truediv (Py.sum (map own_change transactions))
                       (Py.len transactions) with
      | None => Err ZeroDivisionError
      | Some avg_own_change =>
          if Py.ge total_value min_value
             && Py.ge unique_insiders min_insiders
             && Py.ge avg_own_change min_own_change
          then filter_loop rest min_value min_insiders min_own_change
                 (significant_stocks ++ [ticker])
          else filter_loop rest min_value min_insiders min_own_change
                 significant_stocks
      end
  end.

Definition filter_significant_transactions
    (insider_data : dict (list transaction))
    (min_value min_insiders min_own_change : Q) : result (list string) :=
  filter_loop insider_data min_value min_insiders min_own_change [].

(** *** TradingBot.run_trading_cycle *)

(** [for ticker in significant_stocks: ...], with its [break]. *)
Fixpoint buy_pass (significant_stocks : list string) : M unit :=
  match significant_stocks with
  | [] => ret tt
  | ticker :: rest =>
      price <- get_current_price ticker ;;
      s <- get ;;
      if Py.gt (budget s) 0 && Py.gt price 0
      then buy_stock ticker price (2 # 10) ;; buy_pass rest
      else ret tt
  end.

Fixpoint trading_loop (fuel : nat) (insider_data : dict (list transaction))
    (gain_threshold drop_threshold : Q) : M unit :=
  fun s =>
    if is_running s then
      match fuel with
      | O => OutOfFuel s
      | S fuel' =>
          match filter_significant_transactions insider_data
                  (MIN_VALUE cfg) (MIN_INSIDERS cfg) (MIN_OWN_CHANGE cfg) with
          | Err e => Raise e s
          | Ok [] =>
              (time_sleep 300 ;;
               trading_loop fuel' insider_data gain_threshold drop_threshold) s
          | Ok significant_stocks =>
              (buy_pass significant_stocks ;;
               monitor_prices fuel gain_threshold drop_threshold ;;
               time_sleep 300 ;;
               trading_loop fuel' insider_data gain_threshold drop_threshold) s
          end
      end
    else Ret tt s.

Definition run_trading_cycle (fuel : nat)
    (insider_data : dict (list transaction))
    (gain_threshold drop_threshold : Q) : M unit :=
  modify (set_is_running true) ;;
  trading_loop fuel insider_data gain_threshold drop_threshold.

End TradingBot.

Arguments Ok {A} a.
Arguments Err {A} e.

(** ** The rest of [trading_bot.py] and the worker of [app.py] *)

(** *** TradingBot.get_budget and TradingBot.__init__

    [account_cash] is what [float(self.api.get_account().cash)] gives;
    [None] when the call or the conversion raises. *)
Definition get_budget (account_cash : option Q) : Q :=
  match account_cash with
  | Some cash_balance => cash_balance
  | None => 0%Q
  end.

Definition init (account_cash : option Q) : bot :=
  {| budget := get_budget account_cash; positions := []; is_running := false;
     trade_history := []; lock_held := false; submitted := []; tick := 0 |}.

(** *** TradingBot.stop *)
Definition stop : M unit := modify (set_is_running false).

(** *** run_bot of app.py: the body of the worker thread *)
Definition run_bot (cfg : config) (w : world) (fuel : nat)
    (insider_data : dict (list transaction))
    (gain_threshold drop_threshold : Q) : M unit :=
  try_except
    (run_trading_cycle cfg w fuel insider_data gain_threshold drop_threshold)
    (fun _ => ret tt).

(** *** index of app.py: the dashboard *)

(** A value of [positions_with_prices]. *)
Record view_row := {
  v_quantity : Z;
  v_buy_price : Q;
  v_current_price : Q;
  v_gain_loss : Q
}.

Section Dashboard.

Variable w : world.
Variable py_round2 : Q -> Q.      (* round(x, 2) *)

(** [for ticker, data in bot.positions.items(): ...] *)
Fixpoint index_rows (items : dict position)
    (positions_with_prices : dict view_row) : M (dict view_row) :=
  match items with
  | [] => ret positions_with_prices
  | (ticker, data) :: rest =>
      current_price <- get_current_price w ticker ;;
      g <- or_raise ZeroDivisionError
             (Py.truediv (current_price - buy_price data)%Q (buy_price data)) ;;
      let gain_loss := (g * 100)%Q in
      index_rows rest
        (dict_set positions_with_prices ticker
           {| v_quantity := quantity data; v_buy_price := buy_price data;
              v_current_price := current_price;
              v_gain_loss := py_round2 gain_loss |})
  end.

(** The arguments handed to render_template: budget, positions and
    trade_history. *)
Definition index : M (Q * dict view_row * list trade) :=
  positions_with_prices <-
    with_lock (s <- get ;; index_rows (positions s) []) ;;
  with_lock (s <- get ;; ret (budget s, positions_with_prices, trade_history s)).

End Dashboard.

(** *** scrape_openinsider *)

(** [text.replace(c, "")] for a one-character [c]. *)
Fixpoint str_remove (c : ascii) (text : string) : string :=
  match text with
  | EmptyString => EmptyString
  | String a rest =>
      if Ascii.eqb a c then str_remove c rest else String a (str_remove c rest)
  end.

(** [d[k].append(v)] on a [defaultdict(list)]. *)
Definition dict_append {V : Type} (d : dict (list V)) (k : string) (v : V)
  : dict (list V) :=
  match dict_get d k with
  | Some l => dict_set d k (l ++ [v])
  | None => dict_set d k [v]
  end.

(** What becomes of one table row. *)
Inductive row_result :=
| RowSkipped                                   (* too short, or a number missing *)
| RowError                                     (* ValueError, logged *)
| RowOk (ticker : string) (tx : transaction).

(** What requests and BeautifulSoup hand over: the request failed, the
    page has no table of class tinytable, the table has no tbody, or the
    texts of the td cells of each tr. *)
Inductive page :=
| RequestFailed
| NoTable
| NoTbody
| Table (rows : list (list string)).

Section Scraper.

Variable str_strip : string -> string.       (* text.strip() *)
Variable str_isdigit : string -> bool.       (* text.isdigit() *)
Variable py_float : string -> option Q.      (* float(text); None: ValueError *)
Variable py_int : string -> option Z.        (* int(text); None: ValueError *)

(** [conv(text) if ok else None]; the outer [None] is a ValueError. *)
Definition convert {A : Type} (conv : string -> option A) (ok : bool)
    (text : string) : option (option A) :=
  if ok then
    match conv text with
    | Some v => Some (Some v)
    | None => None
    end
  else Some None.

(** The body of [for row in rows], up to the append. *)
Definition parse_row (cols : list string) : row_result :=
  if (List.length cols <? 12)%nat then RowSkipped
  else
    let ticker := str_strip (nth 2 cols "") in
    let company_name := str_strip (nth 3 cols "") in
    let insider_name := str_strip (nth 4 cols "") in
    let title := str_strip (nth 5 cols "") in
    let trade_type := str_strip (nth 6 cols "") in
    let price_text :=
      str_strip (str_remove "," (str_remove "$" (nth 7 cols ""))) in
    let qty_text :=
      str_strip (str_remove "+" (str_remove "," (nth 8 cols ""))) in
    let own_change_text :=
      str_strip (str_remove "+" (str_remove "%" (nth 9 cols ""))) in
    let value_text :=
      str_strip (str_remove "," (str_remove "$" (nth 10 cols ""))) in
    match convert py_float (str_isdigit (str_remove "." price_text))
            price_text with
    | None => RowError
    | Some price =>
    match convert py_int (str_isdigit qty_text) qty_text with
    | None => RowError
    | Some qty =>
    match convert py_float (str_isdigit (str_remove "." own_change_text))
            own_change_text with
    | None => RowError
    | Some own_change =>
    match convert py_float (str_isdigit (str_remove "." value_text))
            value_text with
    | None => RowError
    | Some total_value =>
        match price, qty, own_change, total_value with
        | Some price, Some qty, Some own_change, Some total_value =>
            RowOk ticker
              {| company_name := company_name; insider_name := insider_name;
                 title := title; trade_type := trade_type; price := price;
                 qty := qty; own_change := own_change;
                 total_value := total_value |}
        | _, _, _, _ => RowSkipped
        end
    end end end end.

Definition scrape_row (insider_data : dict (list transaction))
    (cols : list string) : dict (list transaction) :=
  match parse_row cols with
  | RowOk ticker tx => dict_append insider_data ticker tx
  | RowSkipped | RowError => insider_data
  end.

Definition scrape_rows (rows : list (list string)) : dict (list transaction) :=
  fold_left scrape_row rows [].

(** [None]: the AttributeError of [table.find("tbody").find_all] on a
    table without tbody, which nothing catches. *)
Definition scrape_openinsider (p : page) : option (dict (list transaction)) :=
  match p with
  | RequestFailed => Some []
  | NoTable => Some []
  | NoTbody => None
  | Table rows => Some (scrape_rows rows)
  end.

(** The accepted rows of a table, in page order, and those of one ticker. *)
Definition accepted_rows (rows : list (list string))
  : list (string * transaction) :=
  flat_map (fun cols =>
              match parse_row cols with
              | RowOk ticker tx => [(ticker, tx)]
              | RowSkipped | RowError => []
              end) rows.

End Scraper.

Definition rows_of (ticker : string) (accepted : list (string * transaction))
  : list transaction :=
  map snd (filter (fun x => String.eqb (fst x) ticker) accepted).

(** Stand-ins for the Python builtins on ASCII text, for the scenarios:
    digits only, nothing to strip. *)
Definition digit_value (a : ascii) : option Z :=
  let n := nat_of_ascii a in
  if ((48 <=? n) && (n <=? 57))%nat then Some (Z.of_nat (n - 48)) else None.

Fixpoint digits_value (acc : Z) (text : string) : option Z :=
  match text with
  | EmptyString => Some acc
  | String a rest =>
      match digit_value a with
      | Some v => digits_value (10 * acc + v) rest
      | None => None
      end
  end.

Definition ascii_isdigit (text : string) : bool :=
  match text with
  | EmptyString => false
  | _ => match digits_value 0 text with Some _ => true | None => false end
  end.

Definition ascii_int (text : string) : option Z :=
  if ascii_isdigit text then digits_value 0 text else None.

Definition ascii_float (text : string) : option Q :=
  option_map inject_Z (ascii_int text).

Definition no_strip (text : string) : string := text.

(** * The arithmetic of the program: double precision

    Python's [float] and numpy's [float64] are IEEE 754 binary64 numbers:
    every [+], [-], [*] and [/] of the program rounds its result to the
    nearest one (ties to even), [int(x)] raises on an infinity or a nan, and
    only a Python float raises on a zero divisor.  Module [F64] embeds, over
    the binary64 numbers of the kernel ([float]), the functions whose result
    depends on that: [buy_stock] (the number of shares ordered and the budget
    left), [filter_significant_transactions] (the sums and the average), the
    body of the loop of [monitor_prices] with [sell_stock] (gain and drop)
    and [index] (the gain shown). *)

Module F64.

Inductive exn :=
| ZeroDivisionError
| OverflowError     (* int() of an infinity *)
| ValueError        (* int() of a nan *)
| KeyError
| BrokerError.      (* whatever the brokerage client raises *)

Inductive result (A : Type) :=
| Ok (a : A)
| Err (e : exn).

Arguments Ok {A} a.
Arguments Err {A} e.

(** ** Python numbers *)

(** What a double holds: a number (given exactly), an infinity or a nan. *)
Inductive value :=
| Finite (v : Q)
| Inf (negative : bool)
| Nan.

Definition value_of (x : float) : value :=
  match Prim2SF x with
  | S754_zero _ => Finite 0
  | S754_finite s m e =>
      let n := if s then Zneg m else Zpos m in
      Finite (if (0 <=? e)%Z then inject_Z (n * 2 ^ e)
              else n # Z.to_pos (2 ^ (- e)))
  | S754_infinity s => Inf s
  | S754_nan => Nan
  end.

(** [int(x)] for a float: truncation toward zero. *)
Definition int (x : float) : result Z :=
  match value_of x with
  | Finite v => Ok (Z.quot (Qnum v) (Zpos (Qden v)))
  | Inf _ => Err OverflowError
  | Nan => Err ValueError
  end.

(** An int where a float is expected ([quantity * price], [.. / len(..)]):
    the nearest double, ties to even. *)
Definition of_int (z : Z) : float :=
  SF2Prim (binary_normalize prec emax z 0 false).

(** [a / b].  A Python float divided by zero raises; when an operand is a
    numpy.float64, as a price read from a bar is, the quotient is an
    infinity or a nan instead. *)
Definition truediv (numpy : bool) (a b : float) : result float :=
  if (b =? 0)%float && negb numpy then Err ZeroDivisionError
  else Ok (a / b)%float.

(** A number of config.json or of a comparison: an int or a float. *)
Inductive number :=
| Int (z : Z)
| Float (x : float).

(** [a >= b]; Python compares an int with a float by their exact values. *)
Definition ge (a b : number) : bool :=
  match a, b with
  | Int x, Int y => (y <=? x)%Z
  | Float x, Float y => (y <=? x)%float
  | Float x, Int y =>
      match value_of x with
      | Finite v => Qle_bool (inject_Z y) v
      | Inf negative => negb negative
      | Nan => false
      end
  | Int x, Float y =>
      match value_of y with
      | Finite v => Qle_bool v (inject_Z x)
      | Inf negative => negative
      | Nan => false
      end
  end.

(** [sum(xs)] of floats up to CPython 3.11: starts from 0 and adds from
    the left, rounding after each addition. *)
Definition sum_left (xs : list float) : float :=
  fold_left PrimFloat.add xs 0%float.

(** [sum(xs)] of floats from CPython 3.12 on: the same additions, with the
    rounding errors collected in [c] (Neumaier) and added at the end. *)
Definition sum_step (acc : float * float) (x : float) : float * float :=
  let '(f_result, c) := acc in
  let t := (f_result + x)%float in
  (t, if (PrimFloat.abs x <=? PrimFloat.abs f_result)%float
      then (c + ((f_result - t) + x))%float
      else (c + ((x - t) + f_result))%float).

Definition sum_compensated (xs : list float) : float :=
  let '(f_result, c) := fold_left sum_step xs (0%float, 0%float) in
  if negb (c =? 0)%float && PrimFloat.is_finite c
  then (f_result + c)%float else f_result.

(** [len(xs)] and [len(set(xs))] for strings. *)
Definition len {A : Type} (xs : list A) : Z := Z.of_nat (List.length xs).

Definition len_set (xs : list string) : Z := len (nodup string_dec xs).

(** ** Data *)

Record transaction := {
  company_name : string;
  insider_name : string;
  title : string;
  trade_type : string;
  price : float;
  qty : Z;
  own_change : float;
  total_value : float
}.

Record position := {
  quantity : Z;
  buy_price : float;
  highest_price : float
}.

Record trade := {
  tr_type : string;
  tr_ticker : string;
  tr_quantity : Z;
  tr_price : float;
  tr_date : string
}.

(** The environment: what the n-th external interaction answers. *)
Record world := {
  submit_order_ok : nat -> order -> bool;           (* false: the call raises *)
  get_bars_close : nat -> string -> option float;   (* None: the call raises *)
  datetime_now : nat -> string
}.

Record bot := {
  budget : float;
  positions : dict position;
  is_running : bool;
  trade_history : list trade;
  lock_held : bool;
  submitted : list order;
  tick : nat
}.

Definition set_budget (b : float) (s : bot) : bot :=
  {| budget := b; positions := positions s; is_running := is_running s;
     trade_history := trade_history s; lock_held := lock_held s;
     submitted := submitted s; tick := tick s |}.

Definition set_positions (p : dict position) (s : bot) : bot :=
  {| budget := budget s; positions := p; is_running := is_running s;
     trade_history := trade_history s; lock_held := lock_held s;
     submitted := submitted s; tick := tick s |}.

Definition set_trade_history (h : list trade) (s : bot) : bot :=
  {| budget := budget s; positions := positions s; is_running := is_running s;
     trade_history := h; lock_held := lock_held s;
     submitted := submitted s; tick := tick s |}.

Definition set_lock_held (l : bool) (s : bot) : bot :=
  {| budget := budget s; positions := positions s; is_running := is_running s;
     trade_history := trade_history s; lock_held := l;
     submitted := submitted s; tick := tick s |}.

Definition set_submitted (o : list order) (s : bot) : bot :=
  {| budget := budget s; positions := positions s; is_running := is_running s;
     trade_history := trade_history s; lock_held := lock_held s;
     submitted := o; tick := tick s |}.

Definition next_tick (s : bot) : bot :=
  {| budget := budget s; positions := positions s; is_running := is_running s;
     trade_history := trade_history s; lock_held := lock_held s;
     submitted := submitted s; tick := S (tick s) |}.

(** ** The monad *)

Inductive outcome (A : Type) :=
| Ret (a : A) (s : bot)        (* returned normally *)
| Raise (e : exn) (s : bot)    (* an exception is propagating *)
| Blocked (s : bot).           (* waiting for a lock that is never released *)

Arguments Ret {A} a s.
Arguments Raise {A} e s.
Arguments Blocked {A} s.

Definition final_state {A : Type} (o : outcome A) : bot :=
  match o with
  | Ret _ s | Raise _ s | Blocked s => s
  end.

Definition M (A : Type) := bot -> outcome A.

Definition ret {A : Type} (a : A) : M A := fun s => Ret a s.

Definition bind {A B : Type} (m : M A) (k : A -> M B) : M B :=
  fun s =>
    match m s with
    | Ret a s' => k a s'
    | Raise e s' => Raise e s'
    | Blocked s' => Blocked s'
    end.

Definition raise {A : Type} (e : exn) : M A := fun s => Raise e s.

Definition get : M bot := fun s => Ret s s.

Definition modify (f : bot -> bot) : M unit := fun s => Ret tt (f s).

(** [try: m  except Exception as e: h e] *)
Definition try_except {A : Type} (m : M A) (h : exn -> M A) : M A :=
  fun s =>
    match m s with
    | Raise e s' => h e s'
    | o => o
    end.

(** [with lock: m] for the non-reentrant module lock. *)
Definition with_lock {A : Type} (m : M A) : M A :=
  fun s =>
    if lock_held s then Blocked s
    else
      match m (set_lock_held true s) with
      | Ret a s' => Ret a (set_lock_held false s')
      | Raise e s' => Raise e (set_lock_held false s')
      | Blocked s' => Blocked s'
      end.

(** A partial Python operation lifted into the monad. *)
Definition lift {A : Type} (r : result A) : M A :=
  match r with
  | Ok a => ret a
  | Err e => raise e
  end.

Declare Scope f64_scope.
Delimit Scope f64_scope with f64.
Notation "x <- m ;; k" := (bind m (fun x => k))
  (at level 61, m at next level, right associativity) : f64_scope.
Notation "m ;; k" := (bind m (fun _ => k))
  (at level 61, right associativity) : f64_scope.
Local Open Scope f64_scope.

(** ** The program *)

Section TradingBot.

Variable numpy : bool.     (* prices are numpy.float64, not Python floats *)
Variable w : world.

Definition api_submit_order (symbol : string) (qty : Z) (side : string)
  : M unit :=
  fun s =>
    let o := market_order symbol qty side in
    let s' := next_tick (set_submitted (submitted s ++ [o]) s) in
    if submit_order_ok w (tick s) o then Ret tt s' else Raise BrokerError s'.

Definition api_get_bars (ticker : string) : M float :=
  fun s =>
    match get_bars_close w (tick s) ticker with
    | Some c => Ret c (next_tick s)
    | None => Raise BrokerError (next_tick s)
    end.

Definition now : M string :=
  fun s => Ret (datetime_now w (tick s)) (next_tick s).

(** *** record_trade *)

Definition record_trade (trade_type ticker : string) (quantity : Z)
    (price : float) : M unit :=
  date <- now ;;
  let trade := {| tr_type := trade_type; tr_ticker := ticker;
                  tr_quantity := quantity; tr_price := price;
                  tr_date := date |} in
  with_lock (modify (fun s => set_trade_history (trade_history s ++ [trade]) s)).

(** *** TradingBot.get_current_price *)

Definition get_current_price (ticker : string) : M float :=
  try_except (api_get_bars ticker) (fun _ => ret 0%float).

(** *** TradingBot.buy_stock *)

(** The [try] block of buy_stock with its handler. *)
Definition buy_attempt (ticker : string) (price : float) (quantity : Z)
  : M unit :=
  try_except
    (api_submit_order ticker quantity "buy" ;;
     with_lock
       (modify (fun s =>
          set_positions
            (dict_set (positions s) ticker
               {| quantity := quantity; buy_price := price;
                  highest_price := price |}) s) ;;
        modify (fun s =>
          set_budget (budget s - of_int quantity * price)%float s)) ;;
     record_trade "buy" ticker quantity price)
    (fun _ => ret tt).

Definition buy_stock (ticker : string) (price : float)
    (max_position_size : float) : M unit :=
  s <- get ;;
  if dict_mem (positions s) ticker then ret tt
  else
    let max_spend := (budget s * max_position_size)%float in
    buying_power <- lift (truediv numpy max_spend price) ;;
    quantity <- lift (int buying_power) ;;
    if (quantity >? 0)%Z then buy_attempt ticker price quantity
    else ret tt.

(** *** TradingBot.sell_stock *)

(** The body of the [with lock:] block of sell_stock. *)
Definition sell_commit (ticker : string) (quantity : Z) : M unit :=
  p <- get_current_price ticker ;;
  modify (fun s => set_budget (budget s + of_int quantity * p)%float s) ;;
  p' <- get_current_price ticker ;;
  record_trade "sell" ticker quantity p' ;;
  s <- get ;;
  if dict_mem (positions s) ticker
  then modify (set_positions (dict_del (positions s) ticker))
  else raise KeyError.

Definition sell_stock (ticker : string) : M unit :=
  s <- get ;;
  match dict_get (positions s) ticker with
  | None => ret tt
  | Some info =>
      let quantity := quantity info in
      try_except
        (api_submit_order ticker quantity "sell" ;;
         with_lock (sell_commit ticker quantity))
        (fun _ => ret tt)
  end.

(** *** TradingBot.monitor_prices: the body of its [for] loop *)

(** [self.positions[ticker]["highest_price"] = current_price] *)
Definition set_highest_price (ticker : string) (current_price : float)
  : M unit :=
  s <- get ;;
  match dict_get (positions s) ticker with
  | None => raise KeyError
  | Some info =>
      modify (set_positions
                (dict_set (positions s) ticker
                   {| quantity := quantity info; buy_price := buy_price info;
                      highest_price := current_price |}))
  end.

(** The thresholds are the floats that start_trading hands to the worker. *)
Definition monitor_position (gain_threshold drop_threshold : float)
    (ticker : string) (info : position) : M unit :=
  current_price <- get_current_price ticker ;;
  let buy_price := buy_price info in
  let highest_price := highest_price info in
  g <- lift (truediv numpy (current_price - buy_price)%float buy_price) ;;
  let gain := (g * 100)%float in
  (if (highest_price <? current_price)%float
   then with_lock (set_highest_price ticker current_price)
   else ret tt) ;;
  if (gain_threshold <=? gain)%float then
    d <- lift (truediv numpy (highest_price - current_price)%float
                 highest_price) ;;
    let drop := (d * 100)%float in
    if (drop_threshold <=? drop)%float then sell_stock ticker else ret tt
  else ret tt.

End TradingBot.

(** *** TradingBot.filter_significant_transactions

    [py_sum] is the builtin [sum] of the interpreter on floats, [sum_left]
    or [sum_compensated]. *)

Section Filter.

Variable py_sum : list float -> float.

Fixpoint filter_loop (items : dict (list transaction))
    (min_value min_insiders min_own_change : number)
    (significant_stocks : list string) : result (list string) :=
  match items with
  | [] => Ok significant_stocks
  | (ticker, transactions) :: rest =>
      let total_value := py_sum (map total_value transactions) in
      let unique_insiders := len_set (map insider_name transactions) in
      match (if (len transactions =? 0)%Z then Err ZeroDivisionError
             else Ok (py_sum (map own_change transactions)
                      / of_int (len transactions))%float) with
      | Err e => Err e
      | Ok avg_own_change =>
          if ge (Float total_value) min_value
             && ge (Int unique_insiders) min_insiders
             && ge (Float avg_own_change) min_own_change
          then filter_loop rest min_value min_insiders min_own_change
                 (significant_stocks ++ [ticker])
          else filter_loop rest min_value min_insiders min_own_change
                 significant_stocks
      end
  end.

Definition filter_significant_transactions
    (insider_data : dict (list transaction))
    (min_value min_insiders min_own_change : number) : result (list string) :=
  filter_loop insider_data min_value min_insiders min_own_change [].

End Filter.

(** *** index of app.py: the dashboard *)

(** A value of [positions_with_prices]. *)
Record view_row := {
  v_quantity : Z;
  v_buy_price : float;
  v_current_price : float;
  v_gain_loss : float
}.

Section Dashboard.

Variable numpy : bool.
Variable w : world.
Variable py_round2 : float -> float.      (* round(x, 2) *)

(** [for ticker, data in bot.positions.items(): ...] *)
Fixpoint index_rows (items : dict position)
    (positions_with_prices : dict view_row) : M (dict view_row) :=
  match items with
  | [] => ret positions_with_prices
  | (ticker, data) :: rest =>
      current_price <- get_current_price w ticker ;;
      g <- lift (truediv numpy (current_price - buy_price data)%float
                   (buy_price data)) ;;
      let gain_loss := (g * 100)%float in
      index_rows rest
        (dict_set positions_with_prices ticker
           {| v_quantity := quantity data; v_buy_price := buy_price data;
              v_current_price := current_price;
              v_gain_loss := py_round2 gain_loss |})
  end.

(** The arguments handed to render_template: budget, positions and
    trade_history. *)
Definition index : M (float * dict view_row * list trade) :=
  positions_with_prices <-
    with_lock (s <- get ;; index_rows (positions s) []) ;;
  with_lock (s <- get ;; ret (budget s, positions_with_prices, trade_history s)).

End Dashboard.

(** ** Vocabulary of the statements *)

(** Budget, store, history and orders are as they were. *)
Definition untouched (s s' : bot) : Prop :=
  budget s' = budget s /\ positions s' = positions s /\
  trade_history s' = trade_history s /\ submitted s' = submitted s.

(** The dashboard row of a position whose current price is [current_price]:
    the gain is computed in doubles and then handed to [round]. *)
Definition shown_row (py_round2 : float -> float) (p : position)
    (current_price : float) : view_row :=
  {| v_quantity := quantity p; v_buy_price := buy_price p;
     v_current_price := current_price;
     v_gain_loss :=
       py_round2 ((current_price - buy_price p) / buy_price p * 100)%float |}.

(** What get_current_price answers when it is the n-th interaction. *)
Definition fetched (w : world) (n : nat) (ticker : string) : float :=
  match get_bars_close w n ticker with
  | Some c => c
  | None => 0%float
  end.

(** The state an accepted buy of [quantity] shares at [price] leaves: the
    order handed over, the position appended, the budget reduced by the
    rounded product, the buy recorded, two interactions made. *)
Definition bought (w : world) (ticker : string) (price : float)
    (quantity : Z) (s : bot) : bot :=
  {| budget := (budget s - of_int quantity * price)%float;
     positions :=
       positions s ++
         [(ticker, {| quantity := quantity; buy_price := price;
                      highest_price := price |})];
     is_running := is_running s;
     trade_history :=
       trade_history s ++
         [{| tr_type := "buy"; tr_ticker := ticker; tr_quantity := quantity;
             tr_price := price; tr_date := datetime_now w (S (tick s)) |}];
     lock_held := false;
     submitted := submitted s ++ [market_order ticker quantity "buy"];
     tick := S (S (tick s)) |}.

(** The state in which the loop of monitor_prices decides about a position:
    one interaction later, the peak raised if the quote is above it. *)
Definition after_peak_update (ticker : string) (info : position)
    (cur : float) (s : bot) : bot :=
  if (highest_price info <? cur)%float
  then set_positions
         (dict_set (positions s) ticker
            {| quantity := quantity info; buy_price := buy_price info;
               highest_price := cur |}) (next_tick s)
  else next_tick s.

(** The test of filter_significant_transactions on one group. *)
Definition significantb (py_sum : list float -> float)
    (min_value min_insiders min_own_change : number)
    (transactions : list transaction) : bool :=
  ge (Float (py_sum (map total_value transactions))) min_value
  && ge (Int (len_set (map insider_name transactions))) min_insiders
  && ge (Float (py_sum (map own_change transactions)
                / of_int (len transactions))%float) min_own_change.

(** The three thresholds of the signal filter for one ticker's group, in
    the arithmetic of the program: the rounded sum of the values, the
    number of distinct insider names, and the rounded quotient of the
    rounded sum of the ownership changes by the number of transactions. *)
Definition significant (py_sum : list float -> float)
    (min_value min_insiders min_own_change : number)
    (transactions : list transaction) : Prop :=
  ge (Float (py_sum (map total_value transactions))) min_value = true /\
  (exists insiders,
     NoDup insiders /\
     (forall name, In name insiders <->
        exists item, In item transactions /\ insider_name item = name) /\
     ge (Int (Z.of_nat (List.length insiders))) min_insiders = true) /\
  ge (Float (py_sum (map own_change transactions)
             / of_int (Z.of_nat (List.length transactions)))%float)
    min_own_change = true.

(** ** Scenarios *)

(** A broker that accepts every order; the prices it quotes are the
    parameter. *)
Definition accepting (prices : nat -> string -> option float) : world :=
  {| submit_order_ok := fun _ _ => true;
     get_bars_close := prices;
     datetime_now := fun _ => "2024-01-02 10:00:00" |}.

Definition no_quotes : nat -> string -> option float := fun _ _ => None.

(** A running bot with the given cash and positions, nothing traded yet. *)
Definition holding (cash : float) (d : dict position) : bot :=
  {| budget := cash; positions := d; is_running := true;
     trade_history := []; lock_held := false; submitted := []; tick := 0 |}.

(** An insider row, and two insiders of MSFT with the given ownership
    changes. *)
Definition row (insider : string) (own value : float) : transaction :=
  {| company_name := "Corp"; insider_name := insider; title := "Dir";
     trade_type := "P - Purchase"; price := 10; qty := 1000;
     own_change := own; total_value := value |}.

Definition two_insiders (own1 own2 : float) : dict (list transaction) :=
  [("MSFT", [row "Ann" own1 60000; row "Bob" own2 50000])].

(** The same mapping with a second key that has no transaction. *)
Definition with_empty_group : dict (list transaction) :=
  two_insiders 10 20 ++ [("AAPL", [])].

(** 10 shares bought at 2 whose price has peaked at 3, and 40 bought at 100
    that peaked at 150. *)
Definition bought_2_peak_3 : position :=
  {| quantity := 10; buy_price := 2; highest_price := 3 |}.

Definition bought_100_peak_150 : position :=
  {| quantity := 40; buy_price := 100; highest_price := 150 |}.

Definition quotes (c : float) : nat -> string -> option float :=
  fun _ _ => Some c.

(** Two positions with the same exact gain at the quotes below: bought at
    0.32 and quoted 0.35, bought at 0.96 and quoted 1.05. *)
Definition two_small : bot :=
  holding 1000
    [("AAA", {| quantity := 10; buy_price := 0.32; highest_price := 0.32 |});
     ("BBB", {| quantity := 10; buy_price := 0.96; highest_price := 0.96 |})].

Definition quotes_small : nat -> string -> option float :=
  fun _ ticker => if String.eqb ticker "AAA" then Some 0.35%float
                  else Some 1.05%float.

End F64.

(** ** Vocabulary of the statements *)

(** What get_current_price answers when it is the n-th interaction. *)
Definition fetched (w : world) (n : nat) (ticker : string) : Q :=
  match get_bars_close w n ticker with
  | Some c => c
  | None => 0%Q
  end.

(** What is_market_open answers when it is the n-th interaction. *)
Definition market_open_at (w : world) (n : nat) : bool :=
  match get_clock_is_open w n with
  | Some b => b
  | None => false
  end.

(** Keys are unique and no position's peak is below its buy price. *)
Definition peak_ok (d : dict position) : Prop :=
  NoDup (dict_keys d) /\
  forall t p, dict_get d t = Some p -> (buy_price p <= highest_price p)%Q.

(** Every position of [d'] is a position of [d] whose peak has not gone
    down (and whose quantity and buy price are as they were). *)
Definition peak_le (d d' : dict position) : Prop :=
  forall t p', dict_get d' t = Some p' ->
    exists p, dict_get d t = Some p /\
      quantity p' = quantity p /\
      buy_price p' = buy_price p /\
      (highest_price p <= highest_price p')%Q.

(** The store [d'] is well formed and follows [d]. *)
Definition peak_kept (d d' : dict position) : Prop :=
  peak_ok d' /\ peak_le d d'.

(** The state in which monitor_prices decides about a position: one
    interaction later, the peak raised if the quote is above it. *)
Definition after_peak_update (ticker : string) (info : position) (cur : Q)
    (s : bot) : bot :=
  if Py.gt cur (highest_price info)
  then set_positions
         (dict_set (positions s) ticker
            {| quantity := quantity info; buy_price := buy_price info;
               highest_price := cur |}) (next_tick s)
  else next_tick s.

(** An operation that, started with the lock free, hands it back free
    whenever it returns or raises. *)
Definition lock_free_after {A : Type} (o : outcome A) : Prop :=
  match o with
  | Ret _ s' | Raise _ s' => lock_held s' = false
  | Blocked _ | OutOfFuel _ => True
  end.

Definition lock_safe {A : Type} (m : M A) : Prop :=
  forall s, lock_held s = false -> lock_free_after (m s).

(** A relation between the state before and the final state of an operation,
    whatever its outcome. *)
Definition respects (R : bot -> bot -> Prop) {A : Type} (m : M A) : Prop :=
  forall s, R s (final_state (m s)).

(** The history has only gained buy records, and the store exactly the keys
    those records name, in the same order. *)
Definition grows (s s' : bot) : Prop :=
  exists added,
    trade_history s' = trade_history s ++ added /\
    Forall (fun r => tr_type r = "buy" /\ (0 < tr_quantity r)%Z) added /\
    dict_keys (positions s') = dict_keys (positions s) ++ map tr_ticker added.

(** What monitoring leaves as it was: the history, the keys of the store and
    the quantity held under each; and every order it has handed to the broker
    is a market sell of a held ticker for the whole quantity held. *)
Definition monitored (s s' : bot) : Prop :=
  trade_history s' = trade_history s /\
  dict_keys (positions s') = dict_keys (positions s) /\
  (forall t, option_map quantity (dict_get (positions s') t) =
             option_map quantity (dict_get (positions s) t)) /\
  exists orders,
    submitted s' = submitted s ++ orders /\
    Forall (fun o => exists info,
                dict_get (positions s) (symbol o) = Some info /\
                o = market_order (symbol o) (quantity info) "sell") orders.




(** Budget, store, history and orders are as they were. *)
Definition untouched (s s' : bot) : Prop :=
  budget s' = budget s /\ positions s' = positions s /\
  trade_history s' = trade_history s /\ submitted s' = submitted s.

(** The test of filter_significant_transactions on one group. *)
Definition significantb (min_value min_insiders min_own_change : Q)
    (transactions : list transaction) : bool :=
  Py.ge (Py.sum (map total_value transactions)) min_value
  && Py.ge (Py.len_set (map insider_name transactions)) min_insiders
  && Py.ge (Py.sum (map own_change transactions) / Py.len transactions)%Q
       min_own_change.

(** The three thresholds of the signal filter, for one ticker's group. *)
Definition significant (min_value min_insiders min_own_change : Q)
    (transactions : list transaction) : Prop :=
  (min_value <= Py.sum (map total_value transactions))%Q /\
  (min_insiders <= Py.len_set (map insider_name transactions))%Q /\
  (min_own_change <=
     Py.sum (map own_change transactions) / Py.len transactions)%Q.

(** ** Scenarios *)

(** A broker that accepts every order and reports the market open; the
    prices it quotes are the parameter. *)
Definition accepting (prices : nat -> string -> option Q) : world :=
  {| submit_order_ok := fun _ _ => true;
     get_bars_close := prices;
     get_clock_is_open := fun _ => Some true;
     datetime_now := fun _ => "2024-01-02 10:00:00";
     stop_requested := fun _ => false |}.


(** A running bot with the given cash and positions, nothing traded yet. *)
Definition holding (cash : Q) (d : dict position) : bot :=
  {| budget := cash; positions := d; is_running := true;
     trade_history := []; lock_held := false; submitted := []; tick := 0 |}.

(** 40 shares bought at 100 whose price has peaked at 150. *)
Definition bought_100_peak_150 : position :=
  {| quantity := 40; buy_price := 100; highest_price := 150 |}.

(** Two positions held, and one. *)
Definition two_held : bot :=
  holding 1000 [("AAPL", bought_100_peak_150); ("MSFT", bought_100_peak_150)].

Definition one_held : bot := holding 1000 [("AAPL", bought_100_peak_150)].

Definition quotes_130 : nat -> string -> option Q := fun _ _ => Some 130%Q.

(** The second interaction quotes 130, every other one 131. *)
Definition quotes_130_then_131 : nat -> string -> option Q :=
  fun n _ => match n with 1%nat => Some 130%Q | _ => Some 131%Q end.

Definition quotes_160 : nat -> string -> option Q := fun _ _ => Some 160%Q.

(** A broker whose clock reports the market closed. *)
Definition closed_market (prices : nat -> string -> option Q) : world :=
  {| submit_order_ok := fun _ _ => true;
     get_bars_close := prices;
     get_clock_is_open := fun _ => Some false;
     datetime_now := fun _ => "2024-01-02 10:00:00";
     stop_requested := fun _ => false |}.

(** Every price query fails. *)
Definition no_quotes : nat -> string -> option Q := fun _ _ => None.

(** Insider rows: two buyers of MSFT, one buyer of AAPL. *)
Definition row (insider : string) (own value : Q) : transaction :=
  {| company_name := "Corp"; insider_name := insider; title := "Dir";
     trade_type := "P - Purchase"; price := 10; qty := 1000;
     own_change := own; total_value := value |}.

Definition sample_data : dict (list transaction) :=
  [("MSFT", [row "Ann" 10 60000; row "Bob" 20 50000]);
   ("AAPL", [row "Cy" 1 1000])].

(** A broker quoting 160 while the control surface asks to stop during
    every sleep. *)
Definition stopping : world :=
  {| submit_order_ok := fun _ _ => true;
     get_bars_close := quotes_160;
     get_clock_is_open := fun _ => Some true;
     datetime_now := fun _ => "2024-01-02 10:00:00";
     stop_requested := fun _ => true |}.

(** The configuration of the scenarios. *)
Definition sample_cfg : config :=
  {| MIN_VALUE := 100000; MIN_INSIDERS := 2; GAIN_THRESHOLD := 20;
     DROP_THRESHOLD := 10; MIN_OWN_CHANGE := 5 |}.

(** * Properties *)

(** ** Numbers *)

Lemma truediv_nonzero (a b : Q) :
  ~ (b == 0)%Q -> Py.truediv a b = Some (a / b)%Q.
Proof.
  intros Hb. unfold Py.truediv.
  destruct (Qeq_bool b 0) eqn:E; [|reflexivity].
  apply Qeq_bool_iff in E. contradiction.
Qed.


Lemma len_zero_iff {A : Type} (xs : list A) : (Py.len xs == 0)%Q <-> xs = [].
Proof.
  unfold Py.len. split.
  - intros H. destruct xs; [reflexivity|].
    unfold Qeq in H. simpl in H. lia.
  - intros ->. reflexivity.
Qed.

Lemma ge_iff (a b : Q) : Py.ge a b = true <-> (b <= a)%Q.
Proof. unfold Py.ge. apply Qle_bool_iff. Qed.

Lemma gt_iff (a b : Q) : Py.gt a b = true <-> (b < a)%Q.
Proof.
  unfold Py.gt. rewrite negb_true_iff. split.
  - intros H. apply Qnot_le_lt. intros Hle.
    apply Qle_bool_iff in Hle. congruence.
  - intros H. destruct (Qle_bool a b) eqn:E; [|reflexivity].
    apply Qle_bool_iff in E. exfalso. exact (Qlt_not_le _ _ H E).
Qed.

(** ** Dicts *)

Section DictFacts.
Context {V : Type}.
Implicit Types (d : dict V) (k : string) (v : V).

Lemma dict_get_In d k v : dict_get d k = Some v -> In (k, v) d.
Proof.
  induction d as [|[k' v'] d IH]; simpl; [discriminate|].
  destruct (String.eqb_spec k k') as [->|Hne].
  - intros [= ->]. now left.
  - intros H. right. now apply IH.
Qed.

Lemma dict_get_None d k : dict_get d k = None -> ~ In k (dict_keys d).
Proof.
  induction d as [|[k' v'] d IH]; simpl; [tauto|].
  destruct (String.eqb_spec k k') as [->|Hne]; [discriminate|].
  intros H [E|Hin]; [congruence|]. now apply IH.
Qed.

Lemma In_dict_get d k v :
  NoDup (dict_keys d) -> In (k, v) d -> dict_get d k = Some v.
Proof.
  induction d as [|[k' v'] d IH]; simpl; [tauto|].
  intros Hnd [E|Hin].
  - injection E as -> ->. now rewrite String.eqb_refl.
  - inversion Hnd as [|? ? Hk' Hnd']; subst.
    destruct (String.eqb_spec k k') as [->|Hne].
    + exfalso. apply Hk'. change k' with (fst (k', v)). now apply in_map.
    + now apply IH.
Qed.

(** Setting a key that is absent appends it. *)
Lemma dict_set_fresh d k v : dict_get d k = None -> dict_set d k v = d ++ [(k, v)].
Proof.
  induction d as [|[k' v'] d IH]; simpl; [reflexivity|].
  destruct (String.eqb k k'); [discriminate|].
  intros H. now rewrite IH.
Qed.

Lemma dict_get_set d k v k' :
  dict_get (dict_set d k v) k' = if String.eqb k' k then Some v else dict_get d k'.
Proof.
  induction d as [|[k0 v0] d IH]; simpl.
  - reflexivity.
  - destruct (String.eqb_spec k k0) as [->|Hne]; simpl.
    + destruct (String.eqb_spec k' k0); reflexivity.
    + rewrite IH. destruct (String.eqb_spec k' k0) as [->|]; [|reflexivity].
      destruct (String.eqb_spec k0 k); [congruence|reflexivity].
Qed.

Lemma dict_keys_set_present d k v :
  dict_get d k <> None -> dict_keys (dict_set d k v) = dict_keys d.
Proof.
  induction d as [|[k0 v0] d IH]; simpl; [congruence|].
  destruct (String.eqb_spec k k0) as [->|Hne]; simpl; [reflexivity|].
  intros H. now rewrite IH.
Qed.


Lemma dict_keys_set_fresh d k v :
  dict_get d k = None -> dict_keys (dict_set d k v) = dict_keys d ++ [k].
Proof.
  intros H. rewrite dict_set_fresh by exact H.
  unfold dict_keys. now rewrite map_app.
Qed.

Lemma NoDup_dict_set d k v : NoDup (dict_keys d) -> NoDup (dict_keys (dict_set d k v)).
Proof.
  intros Hnd. destruct (dict_get d k) eqn:E.
  - rewrite dict_keys_set_present; [exact Hnd|congruence].
  - rewrite dict_keys_set_fresh by exact E.
    apply NoDup_app; [exact Hnd|repeat constructor; simpl; tauto|].
    intros x Hx [<-|[]]. exact (dict_get_None _ _ E Hx).
Qed.

Lemma In_dict_del d k x : In x (dict_del d k) -> In x d.
Proof.
  induction d as [|[k0 v0] d IH]; simpl; [tauto|].
  destruct (String.eqb k k0); simpl; [tauto|].
  intros [E|H]; [now left|right; now apply IH].
Qed.

Lemma NoDup_dict_del d k : NoDup (dict_keys d) -> NoDup (dict_keys (dict_del d k)).
Proof.
  induction d as [|[k0 v0] d IH]; simpl; [trivial|].
  intros Hnd. inversion Hnd as [|? ? Hk0 Hnd']; subst.
  destruct (String.eqb k k0); [exact Hnd'|].
  simpl. constructor; [|now apply IH].
  intros Hin. apply Hk0. unfold dict_keys in Hin.
  apply in_map_iff in Hin as [[k1 v1] [E Hin]]. simpl in E. subst k1.
  change k0 with (fst (k0, v1)). apply in_map. eapply In_dict_del, Hin.
Qed.

Lemma dict_get_del d k k' v :
  NoDup (dict_keys d) -> dict_get (dict_del d k) k' = Some v -> dict_get d k' = Some v.
Proof.
  intros Hnd H. apply In_dict_get; [exact Hnd|].
  eapply In_dict_del, dict_get_In, H.
Qed.

End DictFacts.

(** ** The model at work *)

(** Budget 10000, fraction 0.2, price 50: 40 shares are bought and 8000
    is left. *)
Example buy_40_at_50 :
  buy_stock (accepting quotes_130) "AAPL" 50 (2 # 10) (holding 10000 []) =
    Ret tt
      {| budget := 8000;
         positions :=
           [("AAPL", {| quantity := 40; buy_price := 50; highest_price := 50 |})];
         is_running := true;
         trade_history :=
           [{| tr_type := "buy"; tr_ticker := "AAPL"; tr_quantity := 40;
               tr_price := 50; tr_date := "2024-01-02 10:00:00" |}];
         lock_held := false;
         submitted := [market_order "AAPL" 40 "buy"];
         tick := 2 |}.
Proof. vm_compute. reflexivity. Qed.

(** A quote of 160 above the peak of 150 raises the peak; the drop is
    computed from the peak read before the update, so nothing is sold. *)
Example poll_raises_peak :
  monitor_poll (accepting quotes_160) 20 10 one_held =
    Ret tt
      {| budget := 1000;
         positions :=
           [("AAPL", {| quantity := 40; buy_price := 100; highest_price := 160 |})];
         is_running := true;
         trade_history := [];
         lock_held := false;
         submitted := [];
         tick := 3 |}.
Proof. vm_compute. reflexivity. Qed.

(** With the market closed a poll fetches no price and changes nothing
    but the count of interactions. *)
Example poll_market_closed :
  monitor_poll (closed_market quotes_160) 20 10 one_held =
    Ret tt
      {| budget := 1000;
         positions := [("AAPL", bought_100_peak_150)];
         is_running := true;
         trade_history := [];
         lock_held := false;
         submitted := [];
         tick := 2 |}.
Proof. vm_compute. reflexivity. Qed.

(** Price 0 handed to buy_stock: the division raises before any order. *)
Example buy_at_zero_raises :
  buy_stock (accepting quotes_130) "AAPL" 0 (2 # 10) (holding 10000 []) =
    Raise ZeroDivisionError (holding 10000 []).
Proof. vm_compute. reflexivity. Qed.

(** ** Leaf operations *)

Lemma get_current_price_eq w ticker s :
  get_current_price w ticker s = Ret (fetched w (tick s) ticker) (next_tick s).
Proof.
  unfold get_current_price, try_except, api_get_bars, fetched.
  destruct (get_bars_close w (tick s) ticker); reflexivity.
Qed.

Lemma is_market_open_eq w s :
  is_market_open w s = Ret (market_open_at w (tick s)) (next_tick s).
Proof.
  unfold is_market_open, try_except, api_get_clock, market_open_at.
  destruct (get_clock_is_open w (tick s)); reflexivity.
Qed.

(** record_trade appends when the lock is free ... *)
Lemma record_trade_free w ty ticker q p s :
  lock_held s = false ->
  record_trade w ty ticker q p s =
    Ret tt (set_trade_history
              (trade_history s ++
                 [{| tr_type := ty; tr_ticker := ticker; tr_quantity := q;
                     tr_price := p; tr_date := datetime_now w (tick s) |}])
              (next_tick s)).
Proof.
  intros L. unfold record_trade, bind, now, with_lock, modify. simpl.
  rewrite L. destruct s; simpl in *; subst; reflexivity.
Qed.

(** ... and never returns when the caller already holds it. *)
Lemma record_trade_held w ty ticker q p s :
  lock_held s = true ->
  record_trade w ty ticker q p s = Blocked (next_tick s).
Proof.
  intros L. unfold record_trade, bind, now, with_lock. simpl.
  now rewrite L.
Qed.

(** ** buy_stock *)

(** ** C7: buying a ticker that is already held returns at once, in the
    very same state: no order, no change to positions, budget or history. *)
Theorem buy_stock_already_held w s ticker price max_position_size info :
  dict_get (positions s) ticker = Some info ->
  buy_stock w ticker price max_position_size s = Ret tt s.
Proof.
  intros H. unfold buy_stock, bind, get, dict_mem. now rewrite H.
Qed.


(** ** Rejected orders *)





(** ** sell_stock *)

(** ** C9: selling a ticker that is not held returns at once, in the very
    same state: no order, no change to budget, positions or history. *)
Theorem sell_stock_not_held w s ticker :
  dict_get (positions s) ticker = None ->
  sell_stock w ticker s = Ret tt s.
Proof.
  intros H. unfold sell_stock, bind, get. now rewrite H.
Qed.

(** ** filter_significant_transactions *)

Lemma filter_loop_cons_nonempty ticker txs rest mv mi mo acc :
  txs <> [] ->
  filter_loop ((ticker, txs) :: rest) mv mi mo acc =
    if Py.ge (Py.sum (map total_value txs)) mv
       && Py.ge (Py.len_set (map insider_name txs)) mi
       && Py.ge (Py.sum (map own_change txs) / Py.len txs)%Q mo
    then filter_loop rest mv mi mo (acc ++ [ticker])
    else filter_loop rest mv mi mo acc.
Proof.
  intros Hne. cbn [filter_loop].
  rewrite truediv_nonzero; [reflexivity|].
  intros E. now apply len_zero_iff in E.
Qed.

Lemma significant_iff mv mi mo txs :
  Py.ge (Py.sum (map total_value txs)) mv
  && Py.ge (Py.len_set (map insider_name txs)) mi
  && Py.ge (Py.sum (map own_change txs) / Py.len txs)%Q mo = true
  <-> significant mv mi mo txs.
Proof.
  unfold significant. rewrite !andb_true_iff, !ge_iff. tauto.
Qed.

Lemma filter_loop_spec items mv mi mo :
  (forall t txs, In (t, txs) items -> txs <> []) ->
  forall acc, exists l,
    filter_loop items mv mi mo acc = Ok l /\
    forall t, In t l <->
      In t acc \/ exists txs, In (t, txs) items /\ significant mv mi mo txs.
Proof.
  induction items as [|[k txs] rest IH]; intros Hne acc.
  - exists acc. split; [reflexivity|].
    intros t. split; [now left|]. intros [H|(txs & [] & _)]. exact H.
  - rewrite filter_loop_cons_nonempty by (apply (Hne k); now left).
    pose proof (significant_iff mv mi mo txs) as Hsig.
    assert (Hrest : forall t txs0, In (t, txs0) rest -> txs0 <> [])
      by (intros t txs0 Hin; apply (Hne t); now right).
    destruct (_ && _).
    + destruct (IH Hrest (acc ++ [k])) as (l & Hl & Hiff).
      exists l. split; [exact Hl|]. intros t. rewrite Hiff, in_app_iff.
      split.
      * intros [[H|[<-|[]]]|(txs0 & Hin & Hs)].
        -- now left.
        -- right. exists txs. split; [now left|]. now apply Hsig.
        -- right. exists txs0. split; [now right|exact Hs].
      * intros [H|(txs0 & [E|Hin] & Hs)].
        -- left. now left.
        -- injection E as <- <-. left. right. now left.
        -- right. now exists txs0.
    + destruct (IH Hrest acc) as (l & Hl & Hiff).
      exists l. split; [exact Hl|]. intros t. rewrite Hiff.
      split.
      * intros [H|(txs0 & Hin & Hs)]; [now left|].
        right. exists txs0. split; [now right|exact Hs].
      * intros [H|(txs0 & [E|Hin] & Hs)].
        -- now left.
        -- injection E as <- <-. apply Hsig in Hs. discriminate.
        -- right. now exists txs0.
Qed.

(** The [with lock:] body of sell_stock, run with the lock free: the budget
    is credited with the first price fetched, the record carries the
    second. *)
Lemma sell_commit_free w s ticker q info :
  lock_held s = false ->
  dict_get (positions s) ticker = Some info ->
  exists s',
    sell_commit w ticker q s = Ret tt s' /\
    budget s' = (budget s + inject_Z q * fetched w (tick s) ticker)%Q /\
    trade_history s' =
      trade_history s ++
        [{| tr_type := "sell"; tr_ticker := ticker; tr_quantity := q;
            tr_price := fetched w (S (tick s)) ticker;
            tr_date := datetime_now w (S (S (tick s))) |}] /\
    positions s' = dict_del (positions s) ticker.
Proof.
  intros L Hget. unfold sell_commit.
  unfold bind at 1. rewrite get_current_price_eq.
  unfold bind at 1, modify at 1.
  unfold bind at 1. rewrite get_current_price_eq.
  unfold bind at 1. rewrite record_trade_free by exact L.
  unfold bind at 1, get at 1, dict_mem. cbn [positions set_trade_history
    next_tick set_budget]. rewrite Hget.
  eexists. split; [reflexivity|]. repeat split.
Qed.

(** The same body as sell_stock runs it, with the lock held: the budget is
    credited, and record_trade then waits for the lock its caller holds. *)
Lemma sell_commit_held w s ticker q :
  lock_held s = true ->
  exists s',
    sell_commit w ticker q s = Blocked s' /\
    budget s' = (budget s + inject_Z q * fetched w (tick s) ticker)%Q /\
    trade_history s' = trade_history s /\
    positions s' = positions s /\
    submitted s' = submitted s /\
    lock_held s' = true.
Proof.
  intros L. unfold sell_commit.
  unfold bind at 1. rewrite get_current_price_eq.
  unfold bind at 1, modify at 1.
  unfold bind at 1. rewrite get_current_price_eq.
  unfold bind at 1. rewrite record_trade_held by exact L.
  eexists. split; [reflexivity|]. repeat split. exact L.
Qed.

(** Every accepted sell of a held position ends blocked: the order is
    placed and the budget credited, but no record is appended and the
    position stays in the store. *)
Lemma sell_stock_accepted w s ticker info :
  dict_get (positions s) ticker = Some info ->
  lock_held s = false ->
  submit_order_ok w (tick s) (market_order ticker (quantity info) "sell") = true ->
  exists s',
    sell_stock w ticker s = Blocked s' /\
    submitted s' = submitted s ++ [market_order ticker (quantity info) "sell"] /\
    budget s' =
      (budget s + inject_Z (quantity info) * fetched w (S (tick s)) ticker)%Q /\
    trade_history s' = trade_history s /\
    positions s' = positions s.
Proof.
  intros Hget L Hok. unfold sell_stock, bind at 1, get at 1. rewrite Hget.
  unfold try_except, bind at 1, api_submit_order. rewrite Hok.
  unfold with_lock. cbn [lock_held next_tick set_submitted]. rewrite L.
  match goal with
  | |- context [sell_commit w ticker (quantity info) ?st] =>
      destruct (sell_commit_held w st ticker (quantity info) eq_refl)
        as (s' & Hrun & Hb & Hh & Hp & Hs & _)
  end.
  rewrite Hrun. exists s'. split; [reflexivity|]. repeat split; assumption.
Qed.

(** Whatever the broker answers, sell_stock appends no record and removes
    no position: the only path to either goes through record_trade with the
    lock held. *)
Lemma sell_stock_never_commits w ticker s :
  trade_history (final_state (sell_stock w ticker s)) = trade_history s /\
  positions (final_state (sell_stock w ticker s)) = positions s.
Proof.
  unfold sell_stock, bind at 1 3, get at 1 2.
  destruct (dict_get (positions s) ticker) as [info|]; [|now split].
  unfold try_except, bind at 1 2, api_submit_order.
  destruct (submit_order_ok _ _ _); [|now split].
  unfold with_lock.
  match goal with |- context [lock_held ?st] => destruct (lock_held st) eqn:L end;
    [now split|].
  match goal with
  | |- context [sell_commit w ticker ?q ?st] =>
      destruct (sell_commit_held w st ticker q eq_refl)
        as (s' & Hrun & _ & Hh & Hp & _)
  end.
  rewrite Hrun. now split.
Qed.

(** ** C2: on an accepted sell the budget credit and the price handed to
    record_trade come from two separate calls of get_current_price.  With
    quotes 130 and then 131, sell_stock credits 40 * 130 and then blocks in
    record_trade; its [with lock:] body, run on its own with the lock free,
    credits 40 * 130 and records the sale at 131. *)
Theorem sell_stock_credit_and_record_differ :
  sell_stock (accepting quotes_130_then_131) "AAPL" one_held =
    Blocked
      {| budget := 6200;
         positions := [("AAPL", bought_100_peak_150)];
         is_running := true;
         trade_history := [];
         lock_held := true;
         submitted := [market_order "AAPL" 40 "sell"];
         tick := 4 |} /\
  sell_commit (accepting quotes_130_then_131) "AAPL" 40 (next_tick one_held) =
    Ret tt
      {| budget := 6200;
         positions := [];
         is_running := true;
         trade_history :=
           [{| tr_type := "sell"; tr_ticker := "AAPL"; tr_quantity := 40;
               tr_price := 131; tr_date := "2024-01-02 10:00:00" |}];
         lock_held := false;
         submitted := [];
         tick := 4 |}.
Proof. split; vm_compute; reflexivity. Qed.

(** ** C10: an accepted sell whose price queries both fail does not
    complete: the budget is credited 40 * 0, and record_trade then blocks on
    the lock sell_stock holds, so no record is appended and the position
    stays in the store. *)
Theorem sell_stock_price_fetch_fails :
  sell_stock (accepting no_quotes) "AAPL" one_held =
    Blocked
      {| budget := 1000;
         positions := [("AAPL", bought_100_peak_150)];
         is_running := true;
         trade_history := [];
         lock_held := true;
         submitted := [market_order "AAPL" 40 "sell"];
         tick := 4 |}.
Proof. vm_compute. reflexivity. Qed.

(** ** C5: a poll with the market open, two positions bought at 100 with
    peak 150, every quote 130, thresholds 20 and 10 (gain 30, drop 13.3):
    the sell of the first position is triggered and accepted, its budget
    credit is made, and the poll then blocks in record_trade.  No sell
    record is appended, the position is not removed, and the second
    position is never examined. *)
Theorem monitor_poll_sell_blocks :
  monitor_poll (accepting quotes_130) 20 10 two_held =
    Blocked
      {| budget := 6200;
         positions :=
           [("AAPL", bought_100_peak_150); ("MSFT", bought_100_peak_150)];
         is_running := true;
         trade_history := [];
         lock_held := true;
         submitted := [market_order "AAPL" 40 "sell"];
         tick := 6 |}.
Proof. vm_compute. reflexivity. Qed.

(** ** The peak of a position *)

Lemma peak_le_refl d : peak_le d d.
Proof.
  intros t p H. exists p. repeat split; try assumption. apply Qle_refl.
Qed.

Lemma peak_le_trans d1 d2 d3 : peak_le d1 d2 -> peak_le d2 d3 -> peak_le d1 d3.
Proof.
  intros H12 H23 t p3 H3.
  destruct (H23 t p3 H3) as (p2 & H2 & Hq2 & Hb2 & Hh2).
  destruct (H12 t p2 H2) as (p1 & H1 & Hq1 & Hb1 & Hh1).
  exists p1. repeat split; try congruence.
  eapply Qle_trans; eassumption.
Qed.

(** Raising the peak of a held position. *)
Lemma peak_set_higher d t info cur :
  peak_ok d ->
  dict_get d t = Some info ->
  (highest_price info <= cur)%Q ->
  let d' := dict_set d t {| quantity := quantity info;
                            buy_price := buy_price info;
                            highest_price := cur |} in
  peak_ok d' /\ peak_le d d'.
Proof.
  intros [Hnd Hok] Hget Hle d'. repeat split.
  - now apply NoDup_dict_set.
  - intros t' p. unfold d'. rewrite dict_get_set.
    destruct (String.eqb_spec t' t) as [->|Hne].
    + intros [= <-]. simpl.
      eapply Qle_trans; [apply (Hok t info Hget)|exact Hle].
    + apply Hok.
  - intros t' p'. unfold d'. rewrite dict_get_set.
    destruct (String.eqb_spec t' t) as [->|Hne].
    + intros [= <-]. exists info. now repeat split.
    + intros H. exists p'. repeat split; try assumption. apply Qle_refl.
Qed.

(** Closing a position. *)
Lemma peak_del d t : peak_ok d -> peak_ok (dict_del d t) /\ peak_le d (dict_del d t).
Proof.
  intros [Hnd Hok]. repeat split.
  - now apply NoDup_dict_del.
  - intros t' p H. apply (Hok t'). eapply dict_get_del; eassumption.
  - intros t' p' H. exists p'. repeat split.
    + eapply dict_get_del; eassumption.
    + apply Qle_refl.
Qed.

(** Opening a position at [price]. *)
Lemma peak_open d t q price :
  peak_ok d ->
  peak_ok (dict_set d t {| quantity := q; buy_price := price;
                           highest_price := price |}).
Proof.
  intros [Hnd Hok]. split.
  - now apply NoDup_dict_set.
  - intros t' p. rewrite dict_get_set.
    destruct (String.eqb_spec t' t) as [->|Hne].
    + intros [= <-]. apply Qle_refl.
    + apply Hok.
Qed.

(** A property of the final state of [m ;; k] follows from the same
    property of the final states of [m] and of [k]. *)
Lemma final_bind_ind {A B : Type} (P : bot -> Prop) (m : M A) (k : A -> M B) s :
  P (final_state (m s)) ->
  (forall a s', m s = Ret a s' -> P s' -> P (final_state (k a s'))) ->
  P (final_state (bind m k s)).
Proof.
  intros Hm Hk. unfold bind. destruct (m s) as [a s'| | |] eqn:E; auto.
Qed.

Lemma final_with_lock {A : Type} (P : dict position -> Prop) (m : M A) s :
  P (positions s) ->
  (forall s1, positions s1 = positions s -> P (positions (final_state (m s1)))) ->
  P (positions (final_state (with_lock m s))).
Proof.
  intros Hs Hm. unfold with_lock. destruct (lock_held s); [exact Hs|].
  specialize (Hm (set_lock_held true s) eq_refl).
  destruct (m (set_lock_held true s)); exact Hm.
Qed.


(** What sell_stock can do to the store. *)
Lemma sell_stock_positions w ticker s :
  let s' := final_state (sell_stock w ticker s) in
  positions s' = positions s \/ positions s' = dict_del (positions s) ticker.
Proof.
  unfold sell_stock, bind at 1, get at 1.
  destruct (dict_get (positions s) ticker) as [info|]; [|now left].
  unfold try_except, bind at 1, api_submit_order.
  destruct (submit_order_ok _ _ _); [|now left].
  unfold with_lock.
  match goal with |- context [lock_held ?st] => destruct (lock_held st) eqn:L end;
    [now left|].
  match goal with
  | |- context [sell_commit w ticker ?q ?st] =>
      destruct (sell_commit_held w st ticker q eq_refl)
        as (s' & Hrun & _ & _ & Hp & _)
  end.
  rewrite Hrun. left. exact Hp.
Qed.

(** What buy_stock can do to the store. *)
Lemma buy_stock_outcome_positions w ticker price mps s o :
  buy_stock w ticker price mps s = o ->
  positions (final_state o) = positions s \/
  exists q, positions (final_state o) =
              dict_set (positions s) ticker
                {| quantity := q; buy_price := price; highest_price := price |}.
Proof.
  unfold buy_stock, bind at 1, get at 1.
  destruct (dict_mem (positions s) ticker); [intros <-; now left|].
  destruct (Py.truediv _ _) as [bp|]; [|intros <-; now left].
  unfold bind at 1, or_raise, ret at 1.
  destruct (_ >? 0)%Z; [|intros <-; now left].
  unfold try_except, bind at 1, api_submit_order.
  destruct (submit_order_ok _ _ _); [|intros <-; now left].
  unfold bind at 1, with_lock.
  match goal with |- context [lock_held ?st] => destruct (lock_held st) eqn:L end;
    [intros <-; now left|].
  unfold bind at 1, modify.
  rewrite record_trade_free by reflexivity.
  intros <-. right. exists (Py.int bp). reflexivity.
Qed.

Lemma buy_stock_positions w ticker price mps s :
  let s' := final_state (buy_stock w ticker price mps s) in
  positions s' = positions s \/
  exists q, positions s' =
              dict_set (positions s) ticker
                {| quantity := q; buy_price := price; highest_price := price |}.
Proof. intros s'. now apply (buy_stock_outcome_positions w ticker price mps s). Qed.

Lemma peak_kept_refl d : peak_ok d -> peak_kept d d.
Proof. intros H. split; [exact H|apply peak_le_refl]. Qed.

Lemma peak_kept_trans d1 d2 d3 :
  peak_kept d1 d2 -> peak_kept d2 d3 -> peak_kept d1 d3.
Proof.
  intros [_ H12] [H3 H23]. split; [exact H3|].
  eapply peak_le_trans; eassumption.
Qed.

Create HintDb peak.
#[local] Hint Resolve peak_kept_refl peak_le_refl : peak.

(** The peak update of monitor_prices. *)
Lemma raise_peak_kept ticker cur info s :
  peak_ok (positions s) ->
  dict_get (positions s) ticker = Some info ->
  (highest_price info <= cur)%Q ->
  peak_kept (positions s)
    (positions (final_state (with_lock (set_highest_price ticker cur) s))).
Proof.
  intros Hok Hget Hle.
  apply (final_with_lock (peak_kept (positions s))); [auto with peak|].
  intros s1 Hp. unfold set_highest_price, bind, get. rewrite Hp, Hget.
  unfold modify. cbn [final_state positions set_positions].
  now apply peak_set_higher.
Qed.

Lemma sell_stock_peak w ticker s :
  peak_ok (positions s) ->
  peak_kept (positions s) (positions (final_state (sell_stock w ticker s))).
Proof.
  intros Hok. destruct (sell_stock_positions w ticker s) as [E|E]; rewrite E.
  - auto with peak.
  - now apply peak_del.
Qed.

(** One position examined by the monitor. *)
Lemma monitor_position_peak w g d ticker info s :
  peak_ok (positions s) ->
  dict_get (positions s) ticker = Some info ->
  peak_kept (positions s)
    (positions (final_state (monitor_position w g d ticker info s))).
Proof.
  intros Hok Hget. unfold monitor_position.
  apply (final_bind_ind (fun s' => peak_kept (positions s) (positions s'))).
  { rewrite get_current_price_eq. cbn. auto with peak. }
  intros cur s1 E _. rewrite get_current_price_eq in E.
  injection E as <- <-.
  set (cur := fetched w (tick s) ticker).
  apply final_bind_ind.
  { destruct (Py.truediv _ _); cbn; auto with peak. }
  intros gq s2 E2 _.
  assert (s2 = next_tick s) as ->.
  { destruct (Py.truediv _ _); cbn in E2; [now injection E2|discriminate]. }
  clear E2. apply final_bind_ind.
  { destruct (Py.gt cur (highest_price info)) eqn:G; [|cbn; auto with peak].
    apply gt_iff in G.
    apply (raise_peak_kept ticker cur info (next_tick s) Hok Hget).
    now apply Qlt_le_weak. }
  intros _ s3 _ H3.
  destruct (Py.ge (gq * 100) g); [|exact H3].
  apply final_bind_ind.
  { destruct (Py.truediv _ _); cbn; exact H3. }
  intros dq s4 _ H4.
  destruct (Py.ge (dq * 100) d); [|exact H4].
  eapply peak_kept_trans; [exact H4|].
  apply sell_stock_peak. exact (proj1 H4).
Qed.

(** The whole iteration over the store. *)
Lemma for_items_peak w g d todo size0 :
  forall i s,
    peak_ok (positions s) ->
    peak_kept (positions s)
      (positions (final_state (for_items todo size0 i (monitor_position w g d) s))).
Proof.
  induction todo as [|todo IH]; intros i s Hok; cbn [for_items].
  - destruct (Nat.eqb _ _); cbn; auto with peak.
  - destruct (Nat.eqb _ _); [|cbn; auto with peak].
    destruct (nth_error (positions s) i) as [[ticker info]|] eqn:E;
      [|cbn; auto with peak].
    apply (final_bind_ind (fun s' => peak_kept (positions s) (positions s'))).
    + apply monitor_position_peak; [exact Hok|].
      apply In_dict_get; [exact (proj1 Hok)|].
      eapply nth_error_In, E.
    + intros _ s1 _ H1. eapply peak_kept_trans; [exact H1|].
      apply IH. exact (proj1 H1).
Qed.

Lemma monitor_poll_peak w g d s :
  peak_ok (positions s) ->
  peak_kept (positions s) (positions (final_state (monitor_poll w g d s))).
Proof.
  intros Hok. unfold monitor_poll.
  apply (final_bind_ind (fun s' => peak_kept (positions s) (positions s'))).
  { rewrite is_market_open_eq. cbn. auto with peak. }
  intros open s1 E _. rewrite is_market_open_eq in E. injection E as <- <-.
  apply final_bind_ind.
  { destruct (market_open_at w (tick s)); [|cbn; auto with peak].
    unfold bind, get. apply (for_items_peak w g d _ _ 0 (next_tick s) Hok). }
  intros _ s2 _ H2. unfold time_sleep. cbn.
  destruct (stop_requested w (tick s2)); exact H2.
Qed.

Lemma monitor_prices_peak w g d fuel :
  forall s,
    peak_ok (positions s) ->
    peak_kept (positions s)
      (positions (final_state (monitor_prices w fuel g d s))).
Proof.
  induction fuel as [|fuel IH]; intros s Hok; cbn [monitor_prices].
  - destruct (_ && _); cbn; auto with peak.
  - destruct (_ && _); [|cbn; auto with peak].
    apply (final_bind_ind (fun s' => peak_kept (positions s) (positions s'))).
    + now apply monitor_poll_peak.
    + intros _ s1 _ H1. eapply peak_kept_trans; [exact H1|].
      apply IH. exact (proj1 H1).
Qed.

(** The buy pass and the trading cycle keep the store well formed. *)
Lemma buy_stock_peak_ok w ticker price mps s :
  peak_ok (positions s) ->
  peak_ok (positions (final_state (buy_stock w ticker price mps s))).
Proof.
  intros Hok.
  destruct (buy_stock_positions w ticker price mps s) as [E|[q E]]; rewrite E.
  - exact Hok.
  - now apply peak_open.
Qed.

Lemma buy_pass_peak_ok w stocks :
  forall s,
    peak_ok (positions s) ->
    peak_ok (positions (final_state (buy_pass w stocks s))).
Proof.
  induction stocks as [|ticker rest IH]; intros s Hok; cbn [buy_pass].
  - exact Hok.
  - apply (final_bind_ind (fun s' => peak_ok (positions s'))).
    { now rewrite get_current_price_eq. }
    intros price s1 _ H1. unfold bind at 1, get at 1.
    destruct (_ && _); [|exact H1].
    apply (final_bind_ind (fun s' => peak_ok (positions s'))).
    + now apply buy_stock_peak_ok.
    + intros _ s2 _ H2. now apply IH.
Qed.

Lemma trading_loop_peak_ok cfg w data g d fuel :
  forall s,
    peak_ok (positions s) ->
    peak_ok (positions (final_state (trading_loop cfg w fuel data g d s))).
Proof.
  induction fuel as [|fuel IH]; intros s Hok; cbn [trading_loop].
  - destruct (is_running s); exact Hok.
  - destruct (is_running s); [|exact Hok].
    destruct (filter_significant_transactions _ _ _ _) as [[|t l]|e];
      [| |exact Hok].
    + apply (final_bind_ind (fun s' => peak_ok (positions s'))).
      { unfold time_sleep. cbn. now destruct (stop_requested _ _). }
      intros _ s1 _ H1. now apply IH.
    + apply (final_bind_ind (fun s' => peak_ok (positions s'))).
      { now apply buy_pass_peak_ok. }
      intros _ s1 _ H1.
      apply (final_bind_ind (fun s' => peak_ok (positions s'))).
      { now apply monitor_prices_peak. }
      intros _ s2 _ H2.
      apply (final_bind_ind (fun s' => peak_ok (positions s'))).
      { unfold time_sleep. cbn. now destruct (stop_requested _ _). }
      intros _ s3 _ H3. now apply IH.
Qed.

(** ** C6: while the monitor loop runs, for any answers of the broker and
    any number of polls, every position still held is one that was held
    before, with the same buy price and a highest price that has not gone
    down, and its highest price is at least its buy price; a position
    created by buy_stock starts with both equal to the price paid, and the
    whole trading cycle keeps highest price >= buy price. *)
Theorem highest_price_invariant cfg w fuel insider_data
    gain_threshold drop_threshold s :
  peak_ok (positions s) ->
  (forall ticker price max_position_size p,
     dict_get (positions s) ticker = None ->
     dict_get
       (positions (final_state (buy_stock w ticker price max_position_size s)))
       ticker = Some p ->
     buy_price p = price /\ highest_price p = price) /\
  (forall ticker p',
     dict_get
       (positions
          (final_state (monitor_prices w fuel gain_threshold drop_threshold s)))
       ticker = Some p' ->
     (buy_price p' <= highest_price p')%Q /\
     exists p,
       dict_get (positions s) ticker = Some p /\
       buy_price p' = buy_price p /\
       (highest_price p <= highest_price p')%Q) /\
  peak_ok
    (positions
       (final_state
          (run_trading_cycle cfg w fuel insider_data
             gain_threshold drop_threshold s))).
Proof.
  intros Hok. split; [|split].
  - intros ticker price mps p Hnone.
    destruct (buy_stock_positions w ticker price mps s) as [E|[q E]]; rewrite E.
    + congruence.
    + rewrite dict_get_set, String.eqb_refl. intros [= <-]. now split.
  - intros ticker p' Hget.
    destruct (monitor_prices_peak w gain_threshold drop_threshold fuel s Hok)
      as [[_ Hok'] Hle].
    split; [now apply (Hok' ticker)|].
    destruct (Hle ticker p' Hget) as (p & Hp & _ & Hb & Hh).
    exists p. now repeat split.
  - unfold run_trading_cycle, bind, modify.
    now apply (trading_loop_peak_ok cfg w insider_data).
Qed.

(** ** The sell trigger *)

Lemma sell_stock_submits w ticker info s :
  dict_get (positions s) ticker = Some info ->
  submitted (final_state (sell_stock w ticker s)) =
    submitted s ++ [market_order ticker (quantity info) "sell"].
Proof.
  intros Hget. unfold sell_stock, bind at 1, get at 1. rewrite Hget.
  unfold try_except, bind at 1, api_submit_order.
  destruct (submit_order_ok _ _ _); [|reflexivity].
  unfold with_lock.
  match goal with |- context [lock_held ?st] => destruct (lock_held st) eqn:L end;
    [reflexivity|].
  match goal with
  | |- context [sell_commit w ticker ?q ?st] =>
      destruct (sell_commit_held w st ticker q eq_refl)
        as (s' & Hrun & _ & _ & _ & Hs & _)
  end.
  rewrite Hrun. exact Hs.
Qed.

(** For a position examined by the monitor, sell_stock is called exactly
    when the gain over the buy price and the drop from the peak read before
    this quote both reach their thresholds. *)
Lemma monitor_position_decision w g d ticker info s :
  ~ (buy_price info == 0)%Q ->
  ~ (highest_price info == 0)%Q ->
  lock_held s = false ->
  dict_get (positions s) ticker = Some info ->
  let cur := fetched w (tick s) ticker in
  let gain := ((cur - buy_price info) / buy_price info * 100)%Q in
  let drop := ((highest_price info - cur) / highest_price info * 100)%Q in
  monitor_position w g d ticker info s =
    if Py.ge gain g && Py.ge drop d
    then sell_stock w ticker (after_peak_update ticker info cur s)
    else Ret tt (after_peak_update ticker info cur s).
Proof.
  intros Hb Hh L Hget cur gain drop. unfold monitor_position.
  unfold bind at 1. rewrite get_current_price_eq. fold cur.
  rewrite truediv_nonzero by exact Hb.
  unfold bind at 1, or_raise at 1, ret at 1. fold gain.
  assert (Hupd :
    (if Py.gt cur (highest_price info)
     then with_lock (set_highest_price ticker cur)
     else ret tt) (next_tick s) = Ret tt (after_peak_update ticker info cur s)).
  { unfold after_peak_update. destruct (Py.gt cur (highest_price info)).
    - unfold with_lock. cbn [lock_held next_tick]. rewrite L.
      unfold set_highest_price, bind, get.
      cbn [positions set_lock_held next_tick].
      rewrite Hget. unfold modify.
      destruct s; cbn in *; subst; reflexivity.
    - reflexivity. }
  unfold bind at 1. rewrite Hupd.
  destruct (Py.ge gain g); [|reflexivity].
  rewrite truediv_nonzero by exact Hh.
  unfold bind at 1, or_raise, ret. fold drop.
  destruct (Py.ge drop d); reflexivity.
Qed.

(** ** The lock between operations

    Run from a state in which the lock is free, every method hands the lock
    back free whenever it returns or raises; so the lock is free at each
    call the trading cycle makes. *)

Lemma lock_safe_ret {A : Type} (a : A) : lock_safe (ret a).
Proof. intros s L. exact L. Qed.

Lemma lock_safe_raise {A : Type} (e : exn) : lock_safe (@raise A e).
Proof. intros s L. exact L. Qed.

Lemma lock_safe_get : lock_safe get.
Proof. intros s L. exact L. Qed.

Lemma lock_safe_bind {A B : Type} (m : M A) (k : A -> M B) :
  lock_safe m -> (forall a, lock_safe (k a)) -> lock_safe (bind m k).
Proof.
  intros Hm Hk s L. unfold bind. specialize (Hm s L).
  destruct (m s) as [a s'| | |]; try exact Hm. now apply Hk.
Qed.

Lemma lock_safe_try_except {A : Type} (m : M A) (h : exn -> M A) :
  lock_safe m -> (forall e, lock_safe (h e)) -> lock_safe (try_except m h).
Proof.
  intros Hm Hh s L. unfold try_except. specialize (Hm s L).
  destruct (m s) as [|e s'| |]; try exact Hm. now apply Hh.
Qed.

Lemma lock_safe_with_lock {A : Type} (m : M A) : lock_safe (with_lock m).
Proof.
  intros s L. unfold with_lock. rewrite L.
  destruct (m (set_lock_held true s)); simpl; trivial.
Qed.

Lemma lock_safe_or_raise {A : Type} (e : exn) (o : option A) :
  lock_safe (or_raise e o).
Proof. destruct o; [apply lock_safe_ret|apply lock_safe_raise]. Qed.

Lemma lock_safe_modify (f : bot -> bot) :
  (forall s, lock_held (f s) = lock_held s) -> lock_safe (modify f).
Proof. intros Hf s L. simpl. now rewrite Hf. Qed.

Lemma lock_safe_submit w ticker q sd : lock_safe (api_submit_order w ticker q sd).
Proof.
  intros s L. unfold api_submit_order.
  destruct (submit_order_ok _ _ _); exact L.
Qed.

Lemma lock_safe_time_sleep w n : lock_safe (time_sleep w n).
Proof.
  intros s L. unfold time_sleep. simpl.
  destruct (stop_requested _ _); exact L.
Qed.

Lemma lock_safe_get_current_price w ticker : lock_safe (get_current_price w ticker).
Proof. intros s L. rewrite get_current_price_eq. exact L. Qed.

Lemma lock_safe_is_market_open w : lock_safe (is_market_open w).
Proof. intros s L. rewrite is_market_open_eq. exact L. Qed.

Lemma lock_safe_record_trade w ty ticker q p : lock_safe (record_trade w ty ticker q p).
Proof. intros s L. rewrite record_trade_free by exact L. exact L. Qed.

Create HintDb lock.
#[local] Hint Resolve lock_safe_ret lock_safe_raise lock_safe_get
  lock_safe_with_lock lock_safe_or_raise lock_safe_submit lock_safe_time_sleep
  lock_safe_get_current_price lock_safe_is_market_open lock_safe_record_trade
  : lock.

Ltac lock_step :=
  repeat
    lazymatch goal with
    | |- lock_safe (bind _ _) => apply lock_safe_bind; [|intros ?]
    | |- lock_safe (try_except _ _) => apply lock_safe_try_except; [|intros ?]
    | |- _ => solve [auto with lock]
    end.

Lemma lock_safe_buy_stock w ticker price mps : lock_safe (buy_stock w ticker price mps).
Proof.
  unfold buy_stock. lock_step.
  destruct (dict_mem _ _); lock_step.
  destruct (_ >? 0)%Z; lock_step.
Qed.

Lemma lock_safe_sell_stock w ticker : lock_safe (sell_stock w ticker).
Proof.
  unfold sell_stock. lock_step.
  destruct (dict_get _ _); lock_step.
Qed.

Lemma lock_safe_monitor_position w g d ticker info :
  lock_safe (monitor_position w g d ticker info).
Proof.
  unfold monitor_position. lock_step.
  - destruct (Py.gt _ _); lock_step.
  - destruct (Py.ge _ _); lock_step.
    destruct (Py.ge _ _); [apply lock_safe_sell_stock|lock_step].
Qed.

Lemma lock_safe_for_items w g d todo size0 :
  forall i, lock_safe (for_items todo size0 i (monitor_position w g d)).
Proof.
  induction todo as [|todo IH]; intros i s L; cbn [for_items].
  - destruct (Nat.eqb _ _); exact L.
  - destruct (Nat.eqb _ _); [|exact L].
    destruct (nth_error (positions s) i) as [[ticker info]|]; [|exact L].
    apply lock_safe_bind; [apply lock_safe_monitor_position| |exact L].
    intros _. apply IH.
Qed.

Lemma lock_safe_monitor_poll w g d : lock_safe (monitor_poll w g d).
Proof.
  unfold monitor_poll. lock_step.
  destruct a; lock_step. apply lock_safe_for_items.
Qed.

Lemma lock_safe_monitor_prices w g d fuel : lock_safe (monitor_prices w fuel g d).
Proof.
  induction fuel as [|fuel IH]; intros s L; cbn [monitor_prices].
  - destruct (_ && _); simpl; trivial.
  - destruct (_ && _); [|exact L].
    apply lock_safe_bind; [apply lock_safe_monitor_poll| |exact L].
    intros _. exact IH.
Qed.

Lemma lock_safe_buy_pass w stocks : lock_safe (buy_pass w stocks).
Proof.
  induction stocks as [|ticker rest IH]; cbn [buy_pass]; lock_step.
  destruct (_ && _); lock_step.
  apply lock_safe_buy_stock.
Qed.

Lemma lock_safe_trading_loop cfg w data g d fuel :
  lock_safe (trading_loop cfg w fuel data g d).
Proof.
  induction fuel as [|fuel IH]; intros s L; cbn [trading_loop].
  - destruct (is_running s); simpl; trivial.
  - destruct (is_running s); [|exact L].
    destruct (filter_significant_transactions _ _ _ _) as [[|t l]|e];
      [| |exact L].
    + apply lock_safe_bind; [apply lock_safe_time_sleep| |exact L].
      intros _. exact IH.
    + revert s L. change (lock_safe
        (bind (buy_pass w (t :: l)) (fun _ =>
         bind (monitor_prices w (S fuel) g d) (fun _ =>
         bind (time_sleep w 300) (fun _ => trading_loop cfg w fuel data g d))))).
      apply lock_safe_bind; [apply lock_safe_buy_pass|intros _].
      apply lock_safe_bind; [apply lock_safe_monitor_prices|intros _].
      apply lock_safe_bind; [apply lock_safe_time_sleep|intros _].
      exact IH.
Qed.

Lemma lock_safe_run_trading_cycle cfg w fuel data g d :
  lock_safe (run_trading_cycle cfg w fuel data g d).
Proof.
  unfold run_trading_cycle. apply lock_safe_bind.
  - now apply lock_safe_modify.
  - intros _. apply lock_safe_trading_loop.
Qed.

(** ** The theorems at work on the scenarios *)

Lemma buy_stock_already_held_witness :
  buy_stock (accepting quotes_130) "AAPL" 130 (2 # 10) one_held = Ret tt one_held.
Proof.
  apply (buy_stock_already_held _ _ _ _ _ bought_100_peak_150). reflexivity.
Defined.

Lemma sell_stock_not_held_witness :
  sell_stock (accepting quotes_130) "MSFT" one_held = Ret tt one_held.
Proof. apply sell_stock_not_held. reflexivity. Defined.


Lemma one_held_peak_ok : peak_ok (positions one_held).
Proof.
  split.
  - repeat constructor. simpl. tauto.
  - intros t p. simpl. destruct (String.eqb t "AAPL"); [|discriminate].
    intros [= <-]. discriminate.
Defined.

Lemma highest_price_invariant_witness :
  (forall ticker price max_position_size p,
     dict_get (positions one_held) ticker = None ->
     dict_get
       (positions
          (final_state
             (buy_stock (accepting quotes_130) ticker price
                max_position_size one_held)))
       ticker = Some p ->
     buy_price p = price /\ highest_price p = price) /\
  (forall ticker p',
     dict_get
       (positions
          (final_state (monitor_prices (accepting quotes_130) 3 20 10 one_held)))
       ticker = Some p' ->
     (buy_price p' <= highest_price p')%Q /\
     exists p,
       dict_get (positions one_held) ticker = Some p /\
       buy_price p' = buy_price p /\
       (highest_price p <= highest_price p')%Q) /\
  peak_ok
    (positions
       (final_state
          (run_trading_cycle
             {| MIN_VALUE := 100000; MIN_INSIDERS := 2; GAIN_THRESHOLD := 20;
                DROP_THRESHOLD := 10; MIN_OWN_CHANGE := 5 |}
             (accepting quotes_130) 3 sample_data 20 10 one_held))).
Proof.
  apply highest_price_invariant. exact one_held_peak_ok.
Defined.

(** * The rest of the program *)

(** ** scrape_openinsider *)

Lemma dict_get_append {V : Type} (d : dict (list V)) k v k' :
  dict_get (dict_append d k v) k' =
    if String.eqb k' k
    then Some (match dict_get d k with Some l => l ++ [v] | None => [v] end)
    else dict_get d k'.
Proof.
  unfold dict_append. destruct (dict_get d k); now rewrite dict_get_set.
Qed.

Lemma NoDup_dict_append {V : Type} (d : dict (list V)) k v :
  NoDup (dict_keys d) -> NoDup (dict_keys (dict_append d k v)).
Proof.
  unfold dict_append. destruct (dict_get d k); apply NoDup_dict_set.
Qed.

Section ScraperFacts.

Variable str_strip : string -> string.
Variable str_isdigit : string -> bool.
Variable py_float : string -> option Q.
Variable py_int : string -> option Z.

Local Abbreviation step := (scrape_row str_strip str_isdigit py_float py_int).
Local Abbreviation accepted := (accepted_rows str_strip str_isdigit py_float py_int).
Local Abbreviation scrape := (scrape_rows str_strip str_isdigit py_float py_int).

Lemma scrape_fold_keys rows :
  forall d, NoDup (dict_keys d) -> NoDup (dict_keys (fold_left step rows d)).
Proof.
  induction rows as [|cols rows IH]; intros d Hd; simpl; [exact Hd|].
  apply IH. unfold scrape_row.
  destruct (parse_row _ _ _ _ cols); [exact Hd|exact Hd|].
  now apply NoDup_dict_append.
Qed.

(** The group of a ticker after the loop: what it held before, followed by
    the accepted rows of that ticker in page order. *)
Lemma scrape_fold_get rows :
  forall d ticker,
    dict_get (fold_left step rows d) ticker =
      match dict_get d ticker, rows_of ticker (accepted rows) with
      | None, [] => None
      | None, l => Some l
      | Some l0, l => Some (l0 ++ l)
      end.
Proof.
  induction rows as [|cols rows IH]; intros d ticker.
  - simpl. destruct (dict_get d ticker); [now rewrite app_nil_r|reflexivity].
  - cbn [fold_left]. rewrite IH.
    unfold accepted_rows. cbn [flat_map].
    fold (accepted_rows str_strip str_isdigit py_float py_int rows).
    unfold scrape_row.
    destruct (parse_row _ _ _ _ cols) as [| |k tx]; cbn [app]; try reflexivity.
    rewrite dict_get_append. unfold rows_of. cbn [filter fst].
    rewrite (String.eqb_sym k ticker).
    destruct (String.eqb_spec ticker k) as [->|Hne].
    + cbn [map snd]. destruct (dict_get d k) as [l0|].
      * now rewrite <- app_assoc.
      * reflexivity.
    + reflexivity.
Qed.

(** ** X1: the dict built from a table holds, under each ticker, exactly the
    accepted rows of that ticker in page order, and has no key for a ticker
    without an accepted row. *)
Theorem scrape_groups_rows_by_ticker rows ticker :
  dict_get (scrape rows) ticker =
    match rows_of ticker (accepted rows) with
    | [] => None
    | l => Some l
    end.
Proof.
  unfold scrape_rows. now rewrite scrape_fold_get.
Qed.

Lemma scrape_rows_keys rows : NoDup (dict_keys (scrape rows)).
Proof. apply scrape_fold_keys. constructor. Qed.

Lemma scrape_rows_nonempty rows ticker txs :
  In (ticker, txs) (scrape rows) -> txs <> [].
Proof.
  intros Hin. apply In_dict_get in Hin; [|apply scrape_rows_keys].
  unfold scrape_rows in Hin. rewrite scrape_fold_get in Hin. cbn [dict_get] in Hin.
  destruct (rows_of ticker (accepted rows)); [discriminate|].
  injection Hin as <-. discriminate.
Qed.

(** ** X2: whatever page is scraped, every ticker of the resulting dict has
    at least one transaction, so filter_significant_transactions returns a
    list on it: the division by the group's length cannot fail. *)
Theorem filter_total_on_scraped p insider_data
    min_value min_insiders min_own_change :
  scrape_openinsider str_strip str_isdigit py_float py_int p = Some insider_data ->
  (forall ticker transactions,
     In (ticker, transactions) insider_data -> transactions <> []) /\
  exists significant_stocks,
    filter_significant_transactions insider_data
      min_value min_insiders min_own_change = Ok significant_stocks.
Proof.
  intros Hp.
  assert (Hne : forall ticker transactions,
             In (ticker, transactions) insider_data -> transactions <> []).
  { destruct p; cbn in Hp; try discriminate; injection Hp as <-;
      try (intros ? ? []). apply scrape_rows_nonempty. }
  split; [exact Hne|].
  destruct (filter_loop_spec insider_data min_value min_insiders
              min_own_change Hne []) as (l & Hl & _).
  now exists l.
Qed.

End ScraperFacts.

(** ** What one operation does to budget, store and history *)

Lemma buy_stock_summary w ticker price mps s o :
  buy_stock w ticker price mps s = o ->
  (budget (final_state o) = budget s /\
   positions (final_state o) = positions s /\
   trade_history (final_state o) = trade_history s) \/
  (exists q date,
     (0 < q)%Z /\ q = Py.int (budget s * mps / price) /\ ~ (price == 0)%Q /\
     dict_get (positions s) ticker = None /\
     positions (final_state o) =
       positions s ++
         [(ticker, {| quantity := q; buy_price := price;
                      highest_price := price |})] /\
     budget (final_state o) = (budget s - inject_Z q * price)%Q /\
     trade_history (final_state o) =
       trade_history s ++
         [{| tr_type := "buy"; tr_ticker := ticker; tr_quantity := q;
             tr_price := price; tr_date := date |}]).
Proof.
  unfold buy_stock, bind at 1, get at 1, dict_mem.
  destruct (dict_get (positions s) ticker) eqn:Hget; [intros <-; now left|].
  unfold Py.truediv.
  destruct (Qeq_bool price 0) eqn:Hp; [intros <-; now left|].
  unfold bind at 1, or_raise, ret at 1.
  destruct (_ >? 0)%Z eqn:Hq; [|intros <-; now left].
  unfold try_except, bind at 1, api_submit_order.
  destruct (submit_order_ok _ _ _); [|intros <-; now left].
  unfold bind at 1, with_lock.
  match goal with |- context [lock_held ?st] => destruct (lock_held st) eqn:L end;
    [intros <-; now left|].
  unfold bind at 1, modify.
  rewrite record_trade_free by reflexivity.
  intros <-. right. exists (Py.int (budget s * mps / price)). eexists.
  split; [now apply Z.gtb_lt|]. split; [reflexivity|].
  split. { intros E. apply Qeq_bool_iff in E. congruence. }
  split; [reflexivity|].
  cbn [final_state positions budget trade_history set_trade_history next_tick
       set_lock_held set_budget set_positions set_submitted].
  rewrite dict_set_fresh by exact Hget. repeat split.
Qed.



Lemma sell_stock_not_held_eq w ticker s :
  dict_get (positions s) ticker = None -> sell_stock w ticker s = Ret tt s.
Proof.
  intros H. unfold sell_stock, bind, get. now rewrite H.
Qed.

Lemma sell_stock_orders w ticker s :
  submitted (final_state (sell_stock w ticker s)) =
    submitted s ++
      match dict_get (positions s) ticker with
      | Some info => [market_order ticker (quantity info) "sell"]
      | None => []
      end.
Proof.
  destruct (dict_get (positions s) ticker) as [info|] eqn:Hget.
  - now apply sell_stock_submits.
  - rewrite sell_stock_not_held_eq by exact Hget. cbn. now rewrite app_nil_r.
Qed.

(** ** Relations kept by the loops

    A preorder on states that ticking, stopping, raising a peak, selling and
    buying at a price above zero all respect is respected by the monitor
    loop, the buy pass, the trading cycle and the worker. *)

Section Respects.

Variable cfg : config.
Variable w : world.
Variable R : bot -> bot -> Prop.

Hypothesis R_refl : forall s, R s s.
Hypothesis R_trans : forall s1 s2 s3, R s1 s2 -> R s2 s3 -> R s1 s3.
Hypothesis R_tick : forall s, R s (next_tick s).
Hypothesis R_running : forall s b, R s (set_is_running b s).
Hypothesis R_peak :
  forall ticker cur, respects R (with_lock (set_highest_price ticker cur)).
Hypothesis R_sell : forall ticker, respects R (sell_stock w ticker).

Lemma respects_ret {A : Type} (a : A) : respects R (ret a).
Proof. intros s. apply R_refl. Qed.

Lemma respects_bind {A B : Type} (m : M A) (k : A -> M B) :
  respects R m -> (forall a, respects R (k a)) -> respects R (bind m k).
Proof.
  intros Hm Hk s. apply (final_bind_ind (R s)); [apply Hm|].
  intros a s' _ H. eapply R_trans; [exact H|apply Hk].
Qed.

Lemma respects_try_except {A : Type} (m : M A) (h : exn -> M A) :
  respects R m -> (forall e, respects R (h e)) -> respects R (try_except m h).
Proof.
  intros Hm Hh s. unfold try_except. specialize (Hm s).
  destruct (m s) as [| e s' | |]; try exact Hm.
  eapply R_trans; [exact Hm|apply Hh].
Qed.

Lemma respects_or_raise {A : Type} e (o : option A) : respects R (or_raise e o).
Proof. intros s. destruct o; apply R_refl. Qed.

Lemma respects_get_current_price ticker : respects R (get_current_price w ticker).
Proof. intros s. rewrite get_current_price_eq. apply R_tick. Qed.

Lemma respects_is_market_open : respects R (is_market_open w).
Proof. intros s. rewrite is_market_open_eq. apply R_tick. Qed.

Lemma respects_time_sleep n : respects R (time_sleep w n).
Proof.
  intros s. unfold time_sleep. cbn [final_state].
  destruct (stop_requested w (tick s)); [|apply R_tick].
  eapply R_trans; [apply R_tick|apply R_running].
Qed.

Lemma respects_monitor_position g d ticker info :
  respects R (monitor_position w g d ticker info).
Proof.
  unfold monitor_position.
  apply respects_bind; [apply respects_get_current_price|intros cur].
  apply respects_bind; [apply respects_or_raise|intros gq].
  apply respects_bind.
  { destruct (Py.gt _ _); [apply R_peak|apply respects_ret]. }
  intros _. destruct (Py.ge _ _); [|apply respects_ret].
  apply respects_bind; [apply respects_or_raise|intros dq].
  destruct (Py.ge _ _); [apply R_sell|apply respects_ret].
Qed.

Lemma respects_for_items g d todo size0 :
  forall i, respects R (for_items todo size0 i (monitor_position w g d)).
Proof.
  induction todo as [|todo IH]; intros i s; cbn [for_items].
  - destruct (Nat.eqb _ _); apply R_refl.
  - destruct (Nat.eqb _ _); [|apply R_refl].
    destruct (nth_error (positions s) i) as [[ticker info]|]; [|apply R_refl].
    apply respects_bind; [apply respects_monitor_position|].
    intros _. apply IH.
Qed.

Lemma respects_monitor_poll g d : respects R (monitor_poll w g d).
Proof.
  unfold monitor_poll.
  apply respects_bind; [apply respects_is_market_open|intros open].
  apply respects_bind; [|intros _; apply respects_time_sleep].
  destruct open; [|apply respects_ret].
  intros s. unfold bind, get. apply respects_for_items.
Qed.

Lemma respects_monitor_prices g d fuel : respects R (monitor_prices w fuel g d).
Proof.
  induction fuel as [|fuel IH]; intros s; cbn [monitor_prices].
  - destruct (_ && _); apply R_refl.
  - destruct (_ && _); [|apply R_refl].
    apply respects_bind; [apply respects_monitor_poll|].
    intros _. exact IH.
Qed.

Hypothesis R_buy :
  forall ticker price,
    (0 < price)%Q -> respects R (buy_stock w ticker price (2 # 10)).

Lemma respects_buy_pass stocks : respects R (buy_pass w stocks).
Proof.
  induction stocks as [|ticker rest IH]; cbn [buy_pass].
  - apply respects_ret.
  - apply respects_bind; [apply respects_get_current_price|intros price].
    intros s. unfold bind at 1, get at 1.
    destruct (Py.gt (budget s) 0); cbn [andb]; [|apply R_refl].
    destruct (Py.gt price 0) eqn:Hp; [|apply R_refl].
    apply gt_iff in Hp.
    apply respects_bind; [now apply R_buy|]. intros _. exact IH.
Qed.

Lemma respects_trading_loop data g d fuel :
  respects R (trading_loop cfg w fuel data g d).
Proof.
  induction fuel as [|fuel IH]; intros s; cbn [trading_loop].
  - destruct (is_running s); apply R_refl.
  - destruct (is_running s); [|apply R_refl].
    destruct (filter_significant_transactions _ _ _ _) as [[|t l]|e];
      [| |apply R_refl].
    + apply respects_bind; [apply respects_time_sleep|]. intros _. exact IH.
    + revert s. change (respects R
        (bind (buy_pass w (t :: l)) (fun _ =>
         bind (monitor_prices w (S fuel) g d) (fun _ =>
         bind (time_sleep w 300) (fun _ => trading_loop cfg w fuel data g d))))).
      apply respects_bind; [apply respects_buy_pass|intros _].
      apply respects_bind; [apply respects_monitor_prices|intros _].
      apply respects_bind; [apply respects_time_sleep|intros _].
      exact IH.
Qed.

Lemma respects_run_trading_cycle fuel data g d :
  respects R (run_trading_cycle cfg w fuel data g d).
Proof.
  unfold run_trading_cycle. apply respects_bind.
  - intros s. apply R_running.
  - intros _. apply respects_trading_loop.
Qed.

Lemma respects_run_bot fuel data g d :
  respects R (run_bot cfg w fuel data g d).
Proof.
  unfold run_bot. apply respects_try_except.
  - apply respects_run_trading_cycle.
  - intros _. apply respects_ret.
Qed.

End Respects.

(** ** Raising a peak, in detail *)

Lemma raise_peak_outcome ticker cur s o :
  with_lock (set_highest_price ticker cur) s = o ->
  budget (final_state o) = budget s /\
  trade_history (final_state o) = trade_history s /\
  submitted (final_state o) = submitted s /\
  (positions (final_state o) = positions s \/
   exists info,
     dict_get (positions s) ticker = Some info /\
     positions (final_state o) =
       dict_set (positions s) ticker
         {| quantity := quantity info; buy_price := buy_price info;
            highest_price := cur |}).
Proof.
  unfold with_lock. destruct (lock_held s); [intros <-; cbn; auto|].
  unfold set_highest_price, bind, get. cbn [positions set_lock_held].
  destruct (dict_get (positions s) ticker) as [info|] eqn:Hget.
  - unfold modify. intros <-. cbn. repeat split. right. now exists info.
  - unfold raise. intros <-. cbn. auto.
Qed.

(** ** The history and the keys of the store *)

Lemma grows_same s s' :
  trade_history s' = trade_history s ->
  dict_keys (positions s') = dict_keys (positions s) ->
  grows s s'.
Proof.
  intros Hh Hk. exists []. cbn. rewrite !app_nil_r. auto.
Qed.

Lemma grows_trans s1 s2 s3 : grows s1 s2 -> grows s2 s3 -> grows s1 s3.
Proof.
  intros (a1 & Hh1 & Hf1 & Hk1) (a2 & Hh2 & Hf2 & Hk2).
  exists (a1 ++ a2). rewrite Hh2, Hh1, Hk2, Hk1, map_app, <- !app_assoc.
  repeat split. now apply Forall_app.
Qed.

Lemma grows_peak ticker cur :
  respects grows (with_lock (set_highest_price ticker cur)).
Proof.
  intros s.
  destruct (raise_peak_outcome ticker cur s _ eq_refl) as (_ & Hh & _ & Hp).
  apply grows_same; [exact Hh|].
  destruct Hp as [->|(info & Hget & ->)]; [reflexivity|].
  apply dict_keys_set_present. congruence.
Qed.

Lemma grows_sell w ticker : respects grows (sell_stock w ticker).
Proof.
  intros s. destruct (sell_stock_never_commits w ticker s) as [Hh Hp].
  apply grows_same; [exact Hh|now rewrite Hp].
Qed.

Lemma grows_buy w ticker price mps : respects grows (buy_stock w ticker price mps).
Proof.
  intros s.
  destruct (buy_stock_summary w ticker price mps s _ eq_refl)
    as [(_ & Hp & Hh)|(q & date & Hq & _ & _ & _ & Hp & _ & Hh)].
  - apply grows_same; [exact Hh|now rewrite Hp].
  - eexists. split; [exact Hh|]. split.
    + repeat constructor. exact Hq.
    + rewrite Hp. unfold dict_keys. now rewrite map_app.
Qed.

(** ** X3: over a whole trading cycle, whatever the broker answers, the
    trade history only gains records, every record gained is a buy of a
    positive quantity, and the store gains exactly one key per record, the
    ticker it names, in the same order; no key is ever removed and no sell is
    ever recorded. *)
Theorem trading_cycle_only_records_buys cfg w fuel insider_data
    gain_threshold drop_threshold s :
  exists added,
    trade_history
      (final_state
         (run_trading_cycle cfg w fuel insider_data
            gain_threshold drop_threshold s)) =
      trade_history s ++ added /\
    Forall (fun r => tr_type r = "buy" /\ (0 < tr_quantity r)%Z) added /\
    dict_keys
      (positions
         (final_state
            (run_trading_cycle cfg w fuel insider_data
               gain_threshold drop_threshold s))) =
      dict_keys (positions s) ++ map tr_ticker added.
Proof.
  apply (respects_run_trading_cycle cfg w grows).
  - intros s0. now apply grows_same.
  - exact grows_trans.
  - intros s0. now apply grows_same.
  - intros s0 b. now apply grows_same.
  - exact grows_peak.
  - exact (grows_sell w).
  - intros ticker price _. apply grows_buy.
Qed.

(** ** What monitoring leaves alone *)

Lemma monitored_same s s' :
  trade_history s' = trade_history s ->
  positions s' = positions s ->
  submitted s' = submitted s ->
  monitored s s'.
Proof.
  intros Hh Hp Hs. unfold monitored. rewrite Hh, Hp, Hs.
  repeat split. exists []. now rewrite app_nil_r.
Qed.

Lemma monitored_trans s1 s2 s3 : monitored s1 s2 -> monitored s2 s3 -> monitored s1 s3.
Proof.
  intros (Hh1 & Hk1 & Hq1 & o1 & Hs1 & Hf1) (Hh2 & Hk2 & Hq2 & o2 & Hs2 & Hf2).
  unfold monitored. rewrite Hh2, Hh1, Hk2, Hk1. repeat split.
  - intros t. now rewrite Hq2, Hq1.
  - exists (o1 ++ o2). rewrite Hs2, Hs1, <- app_assoc. split; [reflexivity|].
    apply Forall_app. split; [exact Hf1|].
    eapply Forall_impl; [|exact Hf2].
    intros o (info2 & Hget2 & Ho).
    specialize (Hq1 (symbol o)). rewrite Hget2 in Hq1. cbn in Hq1.
    destruct (dict_get (positions s1) (symbol o)) as [info1|];
      [|discriminate].
    injection Hq1 as Hq. exists info1. split; [reflexivity|].
    now rewrite <- Hq.
Qed.

Lemma monitored_peak ticker cur :
  respects monitored (with_lock (set_highest_price ticker cur)).
Proof.
  intros s.
  destruct (raise_peak_outcome ticker cur s _ eq_refl) as (_ & Hh & Hs & Hp).
  destruct Hp as [Hp|(info & Hget & Hp)].
  - now apply monitored_same.
  - unfold monitored. rewrite Hh, Hs, Hp. repeat split.
    + apply dict_keys_set_present. congruence.
    + intros t. rewrite dict_get_set.
      destruct (String.eqb_spec t ticker) as [->|]; [|reflexivity].
      now rewrite Hget.
    + exists []. now rewrite app_nil_r.
Qed.

Lemma monitored_sell w ticker : respects monitored (sell_stock w ticker).
Proof.
  intros s. destruct (sell_stock_never_commits w ticker s) as [Hh Hp].
  unfold monitored. rewrite Hh, Hp, sell_stock_orders. repeat split.
  eexists. split; [reflexivity|].
  destruct (dict_get (positions s) ticker) as [info|] eqn:Hget; [|constructor].
  repeat constructor. exists info. now split.
Qed.

(** ** X4: while monitor_prices runs, for any number of polls and any
    answers of the broker, the trade history, the keys of the store and the
    quantity held under each key stay as they were, and every order handed
    to the broker is a market sell of a held ticker for the whole quantity
    held. *)
Theorem monitor_only_sells_what_is_held w fuel gain_threshold drop_threshold s :
  monitored s
    (final_state (monitor_prices w fuel gain_threshold drop_threshold s)).
Proof.
  apply (respects_monitor_prices w monitored).
  - intros s0. now apply monitored_same.
  - exact monitored_trans.
  - intros s0. now apply monitored_same.
  - intros s0 b. now apply monitored_same.
  - exact monitored_peak.
  - exact (monitored_sell w).
Qed.

Lemma monitor_poll_keys w g d s :
  dict_keys (positions (final_state (monitor_poll w g d s))) =
    dict_keys (positions s).
Proof.
  assert (H : monitored s (final_state (monitor_poll w g d s))).
  { apply (respects_monitor_poll w monitored).
    - intros s0. now apply monitored_same.
    - exact monitored_trans.
    - intros s0. now apply monitored_same.
    - intros s0 b. now apply monitored_same.
    - exact monitored_peak.
    - exact (monitored_sell w). }
  exact (proj1 (proj2 H)).
Qed.

(** ** X5: monitor_prices never ends because the store has become empty:
    when it returns from a state that holds a position, the store still
    holds every position and the bot has been stopped. *)
Theorem monitor_returns_only_when_stopped w fuel gain_threshold drop_threshold :
  forall s s',
    positions s <> [] ->
    monitor_prices w fuel gain_threshold drop_threshold s = Ret tt s' ->
    is_running s' = false /\
    dict_keys (positions s') = dict_keys (positions s).
Proof.
  induction fuel as [|fuel IH]; intros s s' Hne; cbn [monitor_prices].
  - destruct (positions s) as [|x l] eqn:Hp; [congruence|]. cbn.
    destruct (is_running s) eqn:Hr; [discriminate|].
    intros [= <-]. now rewrite Hp.
  - destruct (Nat.eqb (List.length (positions s)) 0) eqn:Hlen.
    { apply Nat.eqb_eq in Hlen. destruct (positions s); [congruence|discriminate]. }
    cbn [negb andb].
    destruct (is_running s) eqn:Hr; [|intros [= <-]; now split].
    unfold bind at 1. pose proof (monitor_poll_keys w gain_threshold drop_threshold s) as Hk.
    destruct (monitor_poll w gain_threshold drop_threshold s) as [[] s1| | |];
      try discriminate.
    cbn [final_state] in Hk. intros Hrun.
    destruct (IH s1 s') as [Hstop Hk']; [|exact Hrun|].
    + intros E. rewrite E in Hk. cbn in Hk.
      destruct (positions s); [congruence|discriminate].
    + split; [exact Hstop|congruence].
Qed.

(** ** The end of a trading cycle *)

Lemma bind_ret_inv {A B : Type} (m : M A) (k : A -> M B) s b s' :
  bind m k s = Ret b s' -> exists a s1, m s = Ret a s1 /\ k a s1 = Ret b s'.
Proof.
  unfold bind. destruct (m s) as [a s1| | |]; try discriminate.
  intros H. now exists a, s1.
Qed.

Lemma trading_loop_returns_stopped cfg w data g d fuel :
  forall s s',
    trading_loop cfg w fuel data g d s = Ret tt s' -> is_running s' = false.
Proof.
  induction fuel as [|fuel IH]; intros s s'; cbn [trading_loop].
  - destruct (is_running s) eqn:R; [discriminate|]. now intros [= <-].
  - destruct (is_running s) eqn:R; [|now intros [= <-]].
    destruct (filter_significant_transactions _ _ _ _) as [[|t l]|e];
      [| |discriminate].
    + intros H. apply bind_ret_inv in H as (? & s1 & _ & H). now apply IH in H.
    + intros H. apply bind_ret_inv in H as (? & s1 & _ & H).
      apply bind_ret_inv in H as (? & s2 & _ & H).
      apply bind_ret_inv in H as (? & s3 & _ & H). now apply IH in H.
Qed.

(** ** X8: run_trading_cycle has no way out but its loop test: whenever it
    returns, whatever the broker answered and however many cycles it made,
    is_running is False, so only a call of stop() ends a worker that does not
    raise. *)
Theorem trading_cycle_returns_only_when_stopped cfg w fuel insider_data
    gain_threshold drop_threshold s s' :
  run_trading_cycle cfg w fuel insider_data gain_threshold drop_threshold s
    = Ret tt s' ->
  is_running s' = false.
Proof.
  unfold run_trading_cycle. intros H.
  apply bind_ret_inv in H as (? & s1 & _ & H).
  now apply trading_loop_returns_stopped in H.
Qed.

(** With a stop requested during the first sleep the cycle buys MSFT,
    polls once and returns. *)
Lemma trading_cycle_returns_only_when_stopped_witness :
  exists s',
    run_trading_cycle sample_cfg stopping 3 sample_data 20 10 (holding 10000 [])
      = Ret tt s' /\
    positions s' =
      [("MSFT", {| quantity := 12; buy_price := 160; highest_price := 160 |})] /\
    is_running s' = false.
Proof.
  eexists. split; [vm_compute; reflexivity|]. split; [reflexivity|].
  apply (trading_cycle_returns_only_when_stopped sample_cfg stopping 3
           sample_data 20 10 (holding 10000 [])).
  vm_compute. reflexivity.
Defined.

(** ** The budget *)














(** ** Exceptions *)

(** ** X9: when filter_significant_transactions raises, run_trading_cycle
    raises the same exception at once, before any call to the broker and
    with is_running set; run_bot swallows it and returns, so the worker ends
    while the bot still counts as running. *)
Theorem worker_ends_on_filter_error cfg w fuel insider_data
    gain_threshold drop_threshold e s :
  filter_significant_transactions insider_data
    (MIN_VALUE cfg) (MIN_INSIDERS cfg) (MIN_OWN_CHANGE cfg) = Err e ->
  run_trading_cycle cfg w (S fuel) insider_data gain_threshold drop_threshold s =
    Raise e (set_is_running true s) /\
  run_bot cfg w (S fuel) insider_data gain_threshold drop_threshold s =
    Ret tt (set_is_running true s).
Proof.
  intros Hf.
  assert (H : run_trading_cycle cfg w (S fuel) insider_data
                gain_threshold drop_threshold s =
              Raise e (set_is_running true s)).
  { unfold run_trading_cycle, bind, modify. cbn [trading_loop is_running
      set_is_running]. now rewrite Hf. }
  split; [exact H|]. unfold run_bot, try_except. now rewrite H.
Qed.

Lemma worker_ends_on_filter_error_witness :
  run_trading_cycle sample_cfg (accepting quotes_130) 1
    [("MSFT", [row "Ann" 10 60000]); ("AAPL", [])] 20 10 (init (Some 1000%Q)) =
    Raise ZeroDivisionError (set_is_running true (init (Some 1000%Q))) /\
  run_bot sample_cfg (accepting quotes_130) 1
    [("MSFT", [row "Ann" 10 60000]); ("AAPL", [])] 20 10 (init (Some 1000%Q)) =
    Ret tt (set_is_running true (init (Some 1000%Q))).
Proof. apply worker_ends_on_filter_error. reflexivity. Defined.

(** ** Cycles that do nothing *)

Lemma untouched_refl s : untouched s s.
Proof. now repeat split. Qed.

Lemma untouched_trans s1 s2 s3 : untouched s1 s2 -> untouched s2 s3 -> untouched s1 s3.
Proof.
  intros (B1 & P1 & H1 & S1) (B2 & P2 & H2 & S2).
  unfold untouched. now rewrite B2, P2, H2, S2.
Qed.

Lemma untouched_sleep w n s : untouched s (final_state (time_sleep w n s)).
Proof.
  unfold time_sleep. cbn. destruct (stop_requested w (tick s)); now repeat split.
Qed.




Lemma buy_pass_broke w stocks s :
  (budget s <= 0)%Q -> untouched s (final_state (buy_pass w stocks s)).
Proof.
  intros Hb. destruct stocks as [|ticker rest]; cbn [buy_pass].
  - apply untouched_refl.
  - unfold bind at 1. rewrite get_current_price_eq.
    unfold bind at 1, get at 1. change (budget (next_tick s)) with (budget s).
    destruct (Py.gt (budget s) 0) eqn:G; [|now repeat split].
    apply gt_iff in G. lra.
Qed.

Lemma monitor_prices_empty w fuel g d s :
  positions s = [] -> monitor_prices w fuel g d s = Ret tt s.
Proof. intros Hp. destruct fuel; cbn [monitor_prices]; now rewrite Hp. Qed.

Lemma trading_loop_broke cfg w data g d fuel :
  forall s,
    (budget s <= 0)%Q -> positions s = [] ->
    untouched s (final_state (trading_loop cfg w fuel data g d s)).
Proof.
  induction fuel as [|fuel IH]; intros s Hb Hp; cbn [trading_loop].
  - destruct (is_running s); apply untouched_refl.
  - destruct (is_running s); [|apply untouched_refl].
    destruct (filter_significant_transactions _ _ _ _) as [[|t l]|e];
      [| |apply untouched_refl].
    + apply (final_bind_ind (untouched s)); [apply untouched_sleep|].
      intros _ s1 _ H1. eapply untouched_trans; [exact H1|].
      destruct H1 as (B1 & P1 & _). apply IH; congruence.
    + revert s Hb Hp.
      change (forall s, (budget s <= 0)%Q -> positions s = [] ->
        untouched s (final_state
          (bind (buy_pass w (t :: l)) (fun _ =>
           bind (monitor_prices w (S fuel) g d) (fun _ =>
           bind (time_sleep w 300) (fun _ => trading_loop cfg w fuel data g d)))
           s))).
      intros s Hb Hp.
      apply (final_bind_ind (untouched s)); [now apply buy_pass_broke|].
      intros _ s1 _ H1.
      apply (final_bind_ind (untouched s)).
      { rewrite monitor_prices_empty; [exact H1|].
        destruct H1 as (_ & P1 & _). congruence. }
      intros u2 s2 E2 _.
      rewrite monitor_prices_empty in E2
        by (destruct H1 as (_ & P1 & _); congruence).
      injection E2 as E2. subst s2.
      apply (final_bind_ind (untouched s)).
      { eapply untouched_trans; [exact H1|apply untouched_sleep]. }
      intros _ s3 _ H3. eapply untouched_trans; [exact H3|].
      destruct H3 as (B3 & P3 & _). apply IH; congruence.
Qed.

(** ** X11: a bot without budget and without positions (as after a failed
    account query at construction) never hands an order to the broker: a
    trading cycle of any length leaves budget, store, trade history and the
    list of orders as they were. *)
Theorem trading_cycle_without_budget cfg w fuel insider_data
    gain_threshold drop_threshold s :
  (budget s <= 0)%Q ->
  positions s = [] ->
  untouched s
    (final_state
       (run_trading_cycle cfg w fuel insider_data
          gain_threshold drop_threshold s)).
Proof.
  intros Hb Hp. unfold run_trading_cycle, bind, modify.
  eapply untouched_trans; [|now apply trading_loop_broke].
  now repeat split.
Qed.

Lemma trading_cycle_without_budget_witness :
  untouched (init None)
    (final_state
       (run_trading_cycle sample_cfg (accepting quotes_130) 5 sample_data
          20 10 (init None))).
Proof. apply trading_cycle_without_budget; [discriminate|reflexivity]. Defined.

(** ** X12: a poll that finds the market closed, or whose clock query
    fails, fetches no price: it makes two interactions (the clock, the
    sleep), hands no order to the broker and leaves budget, store and trade
    history as they were. *)
Theorem poll_with_market_closed w gain_threshold drop_threshold s :
  market_open_at w (tick s) = false ->
  exists s',
    monitor_poll w gain_threshold drop_threshold s = Ret tt s' /\
    untouched s s' /\
    tick s' = S (S (tick s)).
Proof.
  intros Hc. unfold monitor_poll, bind at 1. rewrite is_market_open_eq, Hc.
  unfold bind, ret, time_sleep. eexists. split; [reflexivity|].
  cbn [tick next_tick]. destruct (stop_requested w (S (tick s)));
    now repeat split.
Qed.

Lemma poll_with_market_closed_witness :
  exists s',
    monitor_poll (closed_market quotes_160) 20 10 one_held = Ret tt s' /\
    untouched one_held s' /\
    tick s' = 2%nat.
Proof. apply poll_with_market_closed. reflexivity. Defined.

(** ** X13: the buy pass ends at the first candidate for which the budget
    is not above zero or the quote is not above zero (zero is what a failed
    price query gives): nothing is bought for it or for any later
    candidate, and only the price query has been made. *)
Theorem buy_pass_ends_at_bad_quote w ticker rest s :
  (budget s <= 0)%Q \/ (fetched w (tick s) ticker <= 0)%Q ->
  buy_pass w (ticker :: rest) s = Ret tt (next_tick s).
Proof.
  intros H. cbn [buy_pass]. unfold bind at 1. rewrite get_current_price_eq.
  unfold bind at 1, get at 1. change (budget (next_tick s)) with (budget s).
  destruct (Py.gt (budget s) 0) eqn:Gb; cbn [andb]; [|reflexivity].
  destruct (Py.gt (fetched w (tick s) ticker) 0) eqn:Gp; [|reflexivity].
  apply gt_iff in Gb. apply gt_iff in Gp. destruct H; lra.
Qed.

Lemma buy_pass_ends_at_bad_quote_witness :
  buy_pass (accepting no_quotes) ["MSFT"; "GOOG"] (holding 10000 []) =
    Ret tt (next_tick (holding 10000 [])).
Proof. apply buy_pass_ends_at_bad_quote. right. discriminate. Defined.

(** ** X15: record_trade appends its record at the end of the history when
    the lock is free, and never returns when its caller holds the lock: it
    must be called outside any [with lock:] block. *)
Theorem record_trade_needs_free_lock w trade_type ticker quantity price s :
  (lock_held s = false ->
   exists s',
     record_trade w trade_type ticker quantity price s = Ret tt s' /\
     trade_history s' =
       trade_history s ++
         [{| tr_type := trade_type; tr_ticker := ticker;
             tr_quantity := quantity; tr_price := price;
             tr_date := datetime_now w (tick s) |}] /\
     budget s' = budget s /\ positions s' = positions s /\
     lock_held s' = false) /\
  (lock_held s = true ->
   exists s',
     record_trade w trade_type ticker quantity price s = Blocked s' /\
     trade_history s' = trade_history s).
Proof.
  split; intros L.
  - rewrite record_trade_free by exact L. eexists. split; [reflexivity|].
    now repeat split.
  - rewrite record_trade_held by exact L. eexists. now split.
Qed.

Lemma record_trade_needs_free_lock_witness :
  (exists s',
     record_trade (accepting quotes_130) "buy" "AAPL" 40 50 one_held = Ret tt s' /\
     trade_history s' =
       [{| tr_type := "buy"; tr_ticker := "AAPL"; tr_quantity := 40;
           tr_price := 50; tr_date := "2024-01-02 10:00:00" |}] /\
     budget s' = 1000%Q /\ positions s' = positions one_held /\
     lock_held s' = false) /\
  (exists s',
     record_trade (accepting quotes_130) "sell" "AAPL" 40 50
       (set_lock_held true one_held) = Blocked s' /\
     trade_history s' = []).
Proof.
  split.
  - apply (proj1 (record_trade_needs_free_lock (accepting quotes_130)
                    "buy" "AAPL" 40 50 one_held)). reflexivity.
  - apply (proj2 (record_trade_needs_free_lock (accepting quotes_130)
                    "sell" "AAPL" 40 50 (set_lock_held true one_held))).
    reflexivity.
Defined.

(** ** filter_significant_transactions, once more *)

Lemma filter_loop_ok items mv mi mo :
  forall acc l,
    filter_loop items mv mi mo acc = Ok l ->
    (forall t txs, In (t, txs) items -> txs <> []) /\
    l = acc ++ map fst (filter (fun x => significantb mv mi mo (snd x)) items).
Proof.
  induction items as [|[k txs] rest IH]; intros acc l.
  - cbn. intros [= <-]. split; [now intros ? ? []|now rewrite app_nil_r].
  - destruct txs as [|tx txs']; [discriminate|].
    rewrite filter_loop_cons_nonempty by discriminate.
    fold (significantb mv mi mo (tx :: txs')). cbn [filter snd].
    destruct (significantb mv mi mo (tx :: txs')); intros H;
      apply IH in H as [Hne ->].
    + split; [|now rewrite <- app_assoc].
      intros t txs0 [[= <- <-]|Hin]; [discriminate|now apply (Hne t)].
    + split; [|reflexivity].
      intros t txs0 [[= <- <-]|Hin]; [discriminate|now apply (Hne t)].
Qed.

Lemma significantb_antitone mv mi mo mv' mi' mo' txs :
  (mv <= mv')%Q -> (mi <= mi')%Q -> (mo <= mo')%Q ->
  significantb mv' mi' mo' txs = true -> significantb mv mi mo txs = true.
Proof.
  intros H1 H2 H3. unfold significantb.
  rewrite !andb_true_iff, !ge_iff. intros [[A B] C].
  repeat split; eapply Qle_trans; eassumption.
Qed.

(** ** X17: raising a threshold never adds a ticker: with every threshold
    at least as high, each ticker returned is also returned under the lower
    thresholds. *)
Theorem filter_antitone_in_thresholds insider_data
    min_value min_insiders min_own_change
    min_value' min_insiders' min_own_change' lower higher :
  (min_value <= min_value')%Q ->
  (min_insiders <= min_insiders')%Q ->
  (min_own_change <= min_own_change')%Q ->
  filter_significant_transactions insider_data
    min_value min_insiders min_own_change = Ok lower ->
  filter_significant_transactions insider_data
    min_value' min_insiders' min_own_change' = Ok higher ->
  incl higher lower.
Proof.
  intros H1 H2 H3 Hl Hh.
  apply filter_loop_ok in Hl as [_ ->]. apply filter_loop_ok in Hh as [_ ->].
  cbn [app]. intros t Hin.
  apply in_map_iff in Hin as (x & <- & Hx). apply filter_In in Hx as [Hx Hs].
  apply in_map, filter_In. split; [exact Hx|].
  eapply significantb_antitone; eassumption.
Qed.

Lemma filter_antitone_in_thresholds_witness : incl ["MSFT"] ["MSFT"; "AAPL"].
Proof.
  apply (filter_antitone_in_thresholds sample_data 1000 1 1 100000 2 5);
    discriminate || reflexivity.
Defined.

(** ** index, the dashboard of app.py *)

Section DashboardFacts.

Variable w : world.
Variable py_round2 : Q -> Q.

Lemma index_blocks_when_locked s :
  lock_held s = true -> index w py_round2 s = Blocked s.
Proof.
  intros L. unfold index, bind, with_lock. now rewrite L.
Qed.

(** ** X19: once a sell order has been accepted, the worker is blocked
    with the lock held, and every later call of index blocks as well. *)
Theorem dashboard_blocks_after_accepted_sell ticker info s :
  dict_get (positions s) ticker = Some info ->
  lock_held s = false ->
  submit_order_ok w (tick s) (market_order ticker (quantity info) "sell") = true ->
  exists s',
    sell_stock w ticker s = Blocked s' /\
    index w py_round2 s' = Blocked s'.
Proof.
  intros Hget L Hok. unfold sell_stock, bind at 1, get at 1. rewrite Hget.
  unfold try_except, bind at 1, api_submit_order. rewrite Hok.
  unfold with_lock at 1. cbn [lock_held next_tick set_submitted]. rewrite L.
  match goal with
  | |- context [sell_commit w ticker (quantity info) ?st] =>
      destruct (sell_commit_held w st ticker (quantity info) eq_refl)
        as (s' & Hrun & _ & _ & _ & _ & L')
  end.
  rewrite Hrun. exists s'. split; [reflexivity|].
  now apply index_blocks_when_locked.
Qed.

End DashboardFacts.

(** ** The further theorems at work on the scenarios *)

Lemma dashboard_blocks_after_accepted_sell_witness :
  exists s',
    sell_stock (accepting quotes_130) "AAPL" one_held = Blocked s' /\
    index (accepting quotes_130) (fun x => x) s' = Blocked s'.
Proof.
  apply (dashboard_blocks_after_accepted_sell (accepting quotes_130)
           (fun x => x) "AAPL" bought_100_peak_150 one_held);
    reflexivity.
Defined.

Lemma monitor_returns_only_when_stopped_witness :
  is_running (final_state (monitor_prices stopping 3 20 10 one_held)) = false /\
  dict_keys (positions (final_state (monitor_prices stopping 3 20 10 one_held))) =
    dict_keys (positions one_held).
Proof.
  apply (monitor_returns_only_when_stopped stopping 3 20 10 one_held);
    [discriminate|reflexivity].
Defined.

(** A table of three rows: one too short, one whose price is not a number,
    one accepted. *)
Lemma filter_total_on_scraped_witness :
  (forall ticker transactions,
     In (ticker, transactions)
       [("MSFT", [{| company_name := "Microsoft"; insider_name := "Ann";
                     title := "Dir"; trade_type := "P"; price := 10;
                     qty := 1000; own_change := 12; total_value := 10000 |}])] ->
     transactions <> []) /\
  exists significant_stocks,
    filter_significant_transactions
      [("MSFT", [{| company_name := "Microsoft"; insider_name := "Ann";
                    title := "Dir"; trade_type := "P"; price := 10;
                    qty := 1000; own_change := 12; total_value := 10000 |}])]
      100000 2 5 = Ok significant_stocks.
Proof.
  apply (filter_total_on_scraped no_strip ascii_isdigit ascii_float ascii_int
           (Table
              [["x"; "2024"; "AAPL"];
               [""; ""; "GOOG"; "Alphabet"; "Bo"; "CEO"; "P"; "n/a"; "5";
                "3%"; "500"; ""];
               [""; ""; "MSFT"; "Microsoft"; "Ann"; "Dir"; "P"; "$10";
                "+1,000"; "+12%"; "$10,000"; ""]])).
  reflexivity.
Defined.

(** ** X21: the worker never raises, and started with the lock free it
    never returns with the lock held. *)
Theorem worker_never_raises cfg w fuel insider_data
    gain_threshold drop_threshold s :
  lock_held s = false ->
  match run_bot cfg w fuel insider_data gain_threshold drop_threshold s with
  | Ret _ s' => lock_held s' = false
  | Raise _ _ => False
  | Blocked _ | OutOfFuel _ => True
  end.
Proof.
  intros L.
  pose proof (lock_safe_run_trading_cycle cfg w fuel insider_data
                gain_threshold drop_threshold s L) as H.
  unfold run_bot, try_except.
  destruct (run_trading_cycle _ _ _ _ _ _ _); exact H.
Qed.

Lemma worker_never_raises_witness :
  match run_bot sample_cfg (accepting quotes_130) 1
          [("AAPL", [])] 20 10 (init (Some 1000%Q)) with
  | Ret _ s' => lock_held s' = false
  | Raise _ _ => False
  | Blocked _ | OutOfFuel _ => True
  end.
Proof. apply worker_never_raises. reflexivity. Defined.

(** ** X22: whatever comes of the decision to sell, after the monitor has
    examined a position its highest price is the larger of the peak it had
    and the price just fetched; its quantity and buy price are as before. *)
Theorem monitor_position_sets_peak_to_max w gain_threshold drop_threshold
    ticker info s :
  ~ (buy_price info == 0)%Q ->
  ~ (highest_price info == 0)%Q ->
  lock_held s = false ->
  dict_get (positions s) ticker = Some info ->
  dict_get
    (positions
       (final_state
          (monitor_position w gain_threshold drop_threshold ticker info s)))
    ticker =
  Some {| quantity := quantity info; buy_price := buy_price info;
          highest_price :=
            if Py.gt (fetched w (tick s) ticker) (highest_price info)
            then fetched w (tick s) ticker
            else highest_price info |}.
Proof.
  intros Hb Hh L Hget.
  rewrite monitor_position_decision by assumption.
  assert (Hp : dict_get
            (positions
               (after_peak_update ticker info (fetched w (tick s) ticker) s))
            ticker =
          Some {| quantity := quantity info; buy_price := buy_price info;
                  highest_price :=
                    if Py.gt (fetched w (tick s) ticker) (highest_price info)
                    then fetched w (tick s) ticker
                    else highest_price info |}).
  { unfold after_peak_update. destruct (Py.gt _ _).
    - cbn [positions set_positions]. now rewrite dict_get_set, String.eqb_refl.
    - cbn [positions next_tick]. rewrite Hget. now destruct info. }
  destruct (_ && _); [|exact Hp].
  now rewrite (proj2 (sell_stock_never_commits w ticker _)).
Qed.

Lemma monitor_position_sets_peak_to_max_witness :
  dict_get
    (positions
       (final_state
          (monitor_position (accepting quotes_160) 20 10 "AAPL"
             bought_100_peak_150 one_held)))
    "AAPL" =
  Some {| quantity := 40; buy_price := 100; highest_price := 160 |}.
Proof.
  apply (monitor_position_sets_peak_to_max (accepting quotes_160) 20 10
           "AAPL" bought_100_peak_150 one_held);
    discriminate || reflexivity.
Defined.

(** * The program in double precision *)

(** ** Doubles *)

(** A double above zero is not zero. *)
Lemma positive_nonzero (p : float) :
  (0 <? p)%float = true -> (p =? 0)%float = false.
Proof.
  rewrite ltb_spec, eqb_spec.
  change (Prim2SF 0) with (S754_zero false).
  destruct (Prim2SF p) as [s|s| |s m e]; try destruct s; compute; congruence.
Qed.

Lemma truediv_positive numpy (a b : float) :
  (0 <? b)%float = true -> F64.truediv numpy a b = F64.Ok (a / b)%float.
Proof.
  intros H. unfold F64.truediv. now rewrite (positive_nonzero b H).
Qed.

Lemma int_finite (x : float) (q : Z) :
  F64.int x = F64.Ok q ->
  exists v,
    F64.value_of x = F64.Finite v /\ q = Z.quot (Qnum v) (Zpos (Qden v)).
Proof.
  unfold F64.int. destruct (F64.value_of x) as [v|s|]; try discriminate.
  intros E. injection E as <-. now exists v.
Qed.

(** When [int(x)] is above zero it is the floor of the number [x] holds. *)
Lemma int_positive_floor (x : float) (q : Z) :
  F64.int x = F64.Ok q -> (0 < q)%Z ->
  exists v, F64.value_of x = F64.Finite v /\ q = Qfloor v.
Proof.
  intros E Hq. destruct (int_finite x q E) as (v & Hv & ->).
  exists v. split; [exact Hv|].
  destruct v as [n d]. simpl in *.
  assert (0 <= n)%Z.
  { destruct (Z.le_gt_cases 0 n) as [|Hn]; [assumption|].
    assert (Z.quot n (Z.pos d) <= 0)%Z; [|lia].
    apply Z.quot_le_upper_bound; lia. }
  now rewrite Z.quot_div_nonneg by lia.
Qed.

(** [int(x)] raises on an infinity and on a nan, and on nothing else. *)
Lemma int_raises (x : float) (e : F64.exn) :
  F64.int x = F64.Err e <->
  (exists negative,
     F64.value_of x = F64.Inf negative /\ e = F64.OverflowError) \/
  (F64.value_of x = F64.Nan /\ e = F64.ValueError).
Proof.
  unfold F64.int. destruct (F64.value_of x) as [v|s|]; split.
  - discriminate.
  - intros [(n & H & _)|(H & _)]; discriminate.
  - intros E. injection E as <-. left. now exists s.
  - intros [(n & H & ->)|(H & _)]; [reflexivity|discriminate].
  - intros E. injection E as <-. now right.
  - intros [(n & H & _)|(_ & ->)]; [discriminate|reflexivity].
Qed.

(** ** The model at work *)

(** Budget 350, fraction 0.2, price 0.56: the quotient 70.0 / 0.56 is the
    double just below 125, so 124 shares are ordered and 280.56 is left. *)
Example buy_124_at_0_56 :
  F64.buy_stock false (F64.accepting F64.no_quotes) "AAPL" 0.56 0.2
    (F64.holding 350 []) =
    F64.Ret tt
      {| F64.budget := 280.56;
         F64.positions :=
           [("AAPL", {| F64.quantity := 124; F64.buy_price := 0.56;
                        F64.highest_price := 0.56 |})];
         F64.is_running := true;
         F64.trade_history :=
           [{| F64.tr_type := "buy"; F64.tr_ticker := "AAPL";
               F64.tr_quantity := 124; F64.tr_price := 0.56;
               F64.tr_date := "2024-01-02 10:00:00" |}];
         F64.lock_held := false;
         F64.submitted := [market_order "AAPL" 124 "buy"];
         F64.tick := 2 |}.
Proof. vm_compute. reflexivity. Qed.

(** The two sums differ where the rounding errors add up. *)
Example sums_differ :
  F64.sum_left [0.1; 0.2; 0.3]%float = 0.6000000000000001%float /\
  F64.sum_compensated [0.1; 0.2; 0.3]%float = 0.6%float.
Proof. split; vm_compute; reflexivity. Qed.

(** ** Leaf operations *)

Lemma get_current_price_f64 w ticker s :
  F64.get_current_price w ticker s =
    F64.Ret (F64.fetched w (F64.tick s) ticker) (F64.next_tick s).
Proof.
  unfold F64.get_current_price, F64.try_except, F64.api_get_bars, F64.fetched.
  destruct (F64.get_bars_close w (F64.tick s) ticker); reflexivity.
Qed.

Lemma record_trade_free_f64 w ty ticker q p s :
  F64.lock_held s = false ->
  F64.record_trade w ty ticker q p s =
    F64.Ret tt
      (F64.set_trade_history
         (F64.trade_history s ++
            [{| F64.tr_type := ty; F64.tr_ticker := ticker;
                F64.tr_quantity := q; F64.tr_price := p;
                F64.tr_date := F64.datetime_now w (F64.tick s) |}])
         (F64.next_tick s)).
Proof.
  intros L.
  unfold F64.record_trade, F64.bind, F64.now, F64.with_lock, F64.modify.
  simpl. rewrite L. destruct s; simpl in *; subst; reflexivity.
Qed.

Lemma record_trade_held_f64 w ty ticker q p s :
  F64.lock_held s = true ->
  F64.record_trade w ty ticker q p s = F64.Blocked (F64.next_tick s).
Proof.
  intros L. unfold F64.record_trade, F64.bind, F64.now, F64.with_lock. simpl.
  now rewrite L.
Qed.

Lemma try_except_ret_never_raises_f64 {A : Type} (m : F64.M A) (a : A) s :
  forall e s', F64.try_except m (fun _ => F64.ret a) s <> F64.Raise e s'.
Proof.
  intros e s'. unfold F64.try_except. destruct (m s); discriminate.
Qed.

(** ** buy_stock *)

(** buy_stock on a ticker that is not held: the division, the conversion,
    then the order. *)
Lemma buy_stock_not_held_f64 numpy w s ticker price mps :
  dict_get (F64.positions s) ticker = None ->
  F64.buy_stock numpy w ticker price mps s =
    match F64.truediv numpy (F64.budget s * mps) price with
    | F64.Err e => F64.Raise e s
    | F64.Ok x =>
        match F64.int x with
        | F64.Err e => F64.Raise e s
        | F64.Ok q =>
            if (q >? 0)%Z then F64.buy_attempt w ticker price q s
            else F64.Ret tt s
        end
    end.
Proof.
  intros H. unfold F64.buy_stock at 1, dict_mem.
  unfold F64.bind at 1, F64.get at 1. rewrite H.
  destruct (F64.truediv _ _ _) as [x|e]; [|reflexivity].
  unfold F64.bind at 1, F64.lift at 1, F64.ret at 1.
  destruct (F64.int x) as [q|e]; [|reflexivity].
  unfold F64.bind at 1, F64.lift at 1, F64.ret at 1.
  destruct (q >? 0)%Z; reflexivity.
Qed.

(** An accepted order, step by step. *)
Lemma buy_attempt_accepted w s ticker price q :
  dict_get (F64.positions s) ticker = None ->
  F64.lock_held s = false ->
  F64.submit_order_ok w (F64.tick s) (market_order ticker q "buy") = true ->
  F64.buy_attempt w ticker price q s =
    F64.Ret tt (F64.bought w ticker price q s).
Proof.
  intros Hget L Hok.
  unfold F64.buy_attempt, F64.try_except, F64.bind at 1, F64.api_submit_order.
  rewrite Hok.
  unfold F64.bind at 1, F64.with_lock. simpl F64.lock_held. rewrite L.
  unfold F64.bind at 1, F64.modify.
  rewrite record_trade_free_f64 by reflexivity.
  unfold F64.bought. simpl.
  rewrite dict_set_fresh by exact Hget. reflexivity.
Qed.

(** ** C4, as the program computes it: a successful buy of a ticker that is
    not held, at a price above zero, buys int(budget * max_position_size /
    price) shares, the product and the quotient being rounded to doubles;
    when that number is above zero it is the floor of the double quotient.
    The buy takes the double quantity * price off the budget (rounding the
    difference to a double), creates the position with buy price and highest
    price equal to the price, and appends the matching buy record; when the
    quantity is not positive nothing is submitted and nothing changes. *)
Theorem buy_stock_success_rounded numpy w s ticker price max_position_size
    quantity :
  dict_get (F64.positions s) ticker = None ->
  F64.lock_held s = false ->
  (0 <? price)%float = true ->
  F64.int (F64.budget s * max_position_size / price)%float
    = F64.Ok quantity ->
  ((0 < quantity)%Z ->
   (exists v,
      F64.value_of (F64.budget s * max_position_size / price)%float
        = F64.Finite v /\
      quantity = Qfloor v) /\
   (F64.submit_order_ok w (F64.tick s) (market_order ticker quantity "buy")
      = true ->
    F64.buy_stock numpy w ticker price max_position_size s =
      F64.Ret tt (F64.bought w ticker price quantity s))) /\
  ((quantity <= 0)%Z ->
   F64.buy_stock numpy w ticker price max_position_size s = F64.Ret tt s).
Proof.
  intros Hget L Hp Hq.
  rewrite buy_stock_not_held_f64 by exact Hget.
  rewrite truediv_positive by exact Hp. rewrite Hq.
  split.
  - intros Hpos. split.
    + now apply int_positive_floor.
    + intros Hok. apply Z.gtb_lt in Hpos. rewrite Hpos.
      now apply buy_attempt_accepted.
  - intros Hle. destruct (Z.gtb_spec quantity 0); [lia|reflexivity].
Qed.

Lemma buy_stock_success_rounded_witness :
  F64.buy_stock false (F64.accepting F64.no_quotes) "AAPL" 0.56 0.2
    (F64.holding 350 []) =
  F64.Ret tt
    (F64.bought (F64.accepting F64.no_quotes) "AAPL" 0.56 124
       (F64.holding 350 [])).
Proof.
  refine (proj2 (proj1 (buy_stock_success_rounded false
           (F64.accepting F64.no_quotes) (F64.holding 350 []) "AAPL" 0.56 0.2
           124 eq_refl eq_refl _ _) _) eq_refl).
  - vm_compute. reflexivity.
  - vm_compute. reflexivity.
  - lia.
Defined.

(** C4 as the spec words it fails on the program.  With budget 350,
    fraction 0.2 and price 0.56 the program buys 124 shares, and the floor
    of 350 * 0.2 / 0.56 is 125.  With budget 18100.80 and price 150.84 it
    buys 24, and the floor of the exact quotient of the doubles it was
    handed is 23.  With budget 1016 and price 20.32 it buys 10 shares and
    leaves a budget below 1016 minus 10 times the price, the doubles taken
    exactly. *)
Lemma buy_stock_quantity_not_exact_floor :
  (option_map F64.quantity
     (dict_get
        (F64.positions
           (F64.final_state
              (F64.buy_stock false (F64.accepting F64.no_quotes) "AAPL"
                 0.56 0.2 (F64.holding 350 [])))) "AAPL") = Some 124%Z /\
   Qfloor (350 * (2 # 10) / (56 # 100)) = 125%Z) /\
  (option_map F64.quantity
     (dict_get
        (F64.positions
           (F64.final_state
              (F64.buy_stock false (F64.accepting F64.no_quotes) "AAPL"
                 150.84 0.2 (F64.holding 18100.80 [])))) "AAPL") = Some 24%Z /\
   exists b m p,
     F64.value_of 18100.80 = F64.Finite b /\
     F64.value_of 0.2 = F64.Finite m /\
     F64.value_of 150.84 = F64.Finite p /\
     Qfloor (b * m / p) = 23%Z) /\
  (option_map F64.quantity
     (dict_get
        (F64.positions
           (F64.final_state
              (F64.buy_stock false (F64.accepting F64.no_quotes) "AAPL"
                 20.32 0.2 (F64.holding 1016 [])))) "AAPL") = Some 10%Z /\
   exists b p b',
     F64.value_of 1016 = F64.Finite b /\
     F64.value_of 20.32 = F64.Finite p /\
     F64.value_of
       (F64.budget
          (F64.final_state
             (F64.buy_stock false (F64.accepting F64.no_quotes) "AAPL"
                20.32 0.2 (F64.holding 1016 [])))) = F64.Finite b' /\
     (b' < b - 10 * p)%Q).
Proof.
  split; [|split].
  - split; vm_compute; reflexivity.
  - split; [vm_compute; reflexivity|].
    do 3 eexists. repeat split; vm_compute; reflexivity.
  - split; [vm_compute; reflexivity|].
    do 3 eexists. repeat split; vm_compute; reflexivity.
Qed.

(** ** X14: buy_stock raises exactly when the ticker is not held and the
    number of shares cannot be computed: ZeroDivisionError for a Python
    float price equal to zero, OverflowError when the quotient is an
    infinity (a price so small that the division overflows, or a
    numpy.float64 zero), ValueError when it is a nan.  The exception is
    raised before any order, in the unchanged state; every failure of the
    broker is swallowed. *)
Theorem buy_stock_raises_iff numpy w ticker price max_position_size s e s' :
  F64.buy_stock numpy w ticker price max_position_size s = F64.Raise e s' <->
  dict_get (F64.positions s) ticker = None /\ s' = s /\
  let buying_power := (F64.budget s * max_position_size / price)%float in
  ((price =? 0)%float = true /\ numpy = false /\ e = F64.ZeroDivisionError) \/
  (((price =? 0)%float = false \/ numpy = true) /\
   ((exists negative,
       F64.value_of buying_power = F64.Inf negative /\
       e = F64.OverflowError) \/
    (F64.value_of buying_power = F64.Nan /\ e = F64.ValueError))).
Proof.
  cbv zeta. rewrite <- int_raises.
  destruct (dict_get (F64.positions s) ticker) as [info|] eqn:Hget.
  { unfold F64.buy_stock, F64.bind, F64.get, dict_mem. rewrite Hget.
    split; [discriminate|]. now intros [? _]. }
  rewrite buy_stock_not_held_f64 by exact Hget.
  unfold F64.truediv.
  destruct (price =? 0)%float eqn:Hz, numpy eqn:Hn; cbn [andb negb].
  2:{ split.
      - intros [= <- <-]. repeat split. left. now repeat split.
      - intros (_ & -> & [(_ & _ & ->)|([?|?] & _)]);
          [reflexivity|discriminate|discriminate]. }
  all: destruct (F64.int _) as [q|e0] eqn:Hq.
  all: split.
  all: try (intros [= <- <-]; repeat split; right; split; auto; fail).
  all: try (intros (_ & -> & [(? & ? & _)|(_ & [= ->])]);
            try discriminate; reflexivity).
  all: try (intros (_ & _ & [(? & ? & _)|(_ & ?)]); discriminate).
  all: destruct (q >? 0)%Z; try discriminate.
  all: intros H; now apply try_except_ret_never_raises_f64 in H.
Qed.

(** A quote of 1e-320 passes the test [price > 0] of the buy loop; the
    quotient 400.0 / 1e-320 is an infinity. *)
Lemma buy_stock_raises_iff_witness :
  F64.buy_stock true (F64.accepting F64.no_quotes) "AAPL" 1e-320 0.2
    (F64.holding 2000 []) =
  F64.Raise F64.OverflowError (F64.holding 2000 []).
Proof.
  apply buy_stock_raises_iff. repeat split. right. split.
  - left. reflexivity.
  - left. exists false. split; vm_compute; reflexivity.
Defined.

(** ** filter_significant_transactions *)

Section FilterFacts.

Variable py_sum : list float -> float.

Local Abbreviation filter_loop64 := (F64.filter_loop py_sum).
Local Abbreviation significantb64 := (F64.significantb py_sum).

Lemma filter_loop_cons_empty ticker rest mv mi mo acc :
  filter_loop64 ((ticker, []) :: rest) mv mi mo acc
    = F64.Err F64.ZeroDivisionError.
Proof. reflexivity. Qed.

Lemma filter_loop_cons ticker txs rest mv mi mo acc :
  txs <> [] ->
  filter_loop64 ((ticker, txs) :: rest) mv mi mo acc =
    if significantb64 mv mi mo txs
    then filter_loop64 rest mv mi mo (acc ++ [ticker])
    else filter_loop64 rest mv mi mo acc.
Proof.
  intros Hne. destruct txs as [|tx txs]; [contradiction|]. reflexivity.
Qed.

(** [len(set(names))] is the length of any duplicate-free list of those
    names. *)
Lemma len_set_distinct (names distinct : list string) :
  NoDup distinct -> (forall x, In x distinct <-> In x names) ->
  F64.len_set names = F64.len distinct.
Proof.
  intros Hnd Hsame. unfold F64.len_set, F64.len. f_equal.
  apply Nat.le_antisymm; apply NoDup_incl_length.
  - apply NoDup_nodup.
  - intros x Hx. apply Hsame. now apply nodup_In in Hx.
  - exact Hnd.
  - intros x Hx. apply nodup_In. now apply Hsame.
Qed.

Lemma significant_rounded_iff mv mi mo txs :
  significantb64 mv mi mo txs = true <->
  F64.significant py_sum mv mi mo txs.
Proof.
  unfold F64.significantb, F64.significant. rewrite !andb_true_iff. split.
  - intros [[Hv Hi] Ho]. repeat split; try assumption.
    exists (nodup string_dec (map F64.insider_name txs)). split; [|split].
    + apply NoDup_nodup.
    + intros name. rewrite nodup_In, in_map_iff. split.
      * intros (item & E & Hin). now exists item.
      * intros (item & Hin & E). now exists item.
    + exact Hi.
  - intros (Hv & (insiders & Hnd & Hsame & Hi) & Ho).
    repeat split; try assumption.
    rewrite (len_set_distinct _ insiders Hnd); [exact Hi|].
    intros x. rewrite Hsame, in_map_iff. split.
    + intros (item & Hin & E). now exists item.
    + intros (item & E & Hin). now exists item.
Qed.

(** On non-empty groups the loop returns what it had collected, then the
    tickers that pass, in the order of the mapping. *)
Lemma filter_loop_on_nonempty items mv mi mo :
  (forall t txs, In (t, txs) items -> txs <> []) ->
  forall acc,
    filter_loop64 items mv mi mo acc =
      F64.Ok (acc ++ map fst
                (filter (fun x => significantb64 mv mi mo (snd x)) items)).
Proof.
  induction items as [|[k txs] rest IH]; intros Hne acc.
  - cbn. now rewrite app_nil_r.
  - rewrite filter_loop_cons by (apply (Hne k); now left).
    assert (Hrest : forall t txs0, In (t, txs0) rest -> txs0 <> [])
      by (intros t txs0 Hin; apply (Hne t); now right).
    cbn [filter snd].
    destruct (F64.significantb py_sum mv mi mo txs);
      rewrite IH by exact Hrest.
    + cbn [map fst]. now rewrite <- app_assoc.
    + reflexivity.
Qed.

(** With an empty group anywhere the loop raises. *)
Lemma filter_loop_empty_group items ticker mv mi mo acc :
  In (ticker, []) items ->
  filter_loop64 items mv mi mo acc = F64.Err F64.ZeroDivisionError.
Proof.
  revert acc. induction items as [|[k txs] rest IH]; intros acc Hin.
  - destruct Hin.
  - destruct txs as [|tx txs].
    + apply filter_loop_cons_empty.
    + destruct Hin as [E|Hin]; [discriminate|].
      rewrite filter_loop_cons by discriminate.
      destruct (F64.significantb _ _ _ _ _); now apply IH.
Qed.

(** Either some group is empty or none is. *)
Lemma empty_group_dec (items : dict (list F64.transaction)) :
  (exists ticker, In (ticker, []) items) \/
  (forall t txs, In (t, txs) items -> txs <> []).
Proof.
  induction items as [|[k txs] rest [(t & Hin)|Hne]].
  - right. now intros ? ? [].
  - left. exists t. now right.
  - destruct txs as [|tx txs].
    + left. exists k. now left.
    + right. intros t txs0 [[= <- <-]|Hin]; [discriminate|now apply (Hne t)].
Qed.

(** ** C1, as the program behaves: filter_significant_transactions raises
    exactly when the mapping has a ticker whose transaction list is empty,
    and what it raises is ZeroDivisionError, from [sum(..) /
    len(transactions)]; the key is not skipped, the call returns no list. *)
Theorem filter_raises_iff_empty_group insider_data
    min_value min_insiders min_own_change e :
  F64.filter_significant_transactions py_sum insider_data
    min_value min_insiders min_own_change = F64.Err e <->
  e = F64.ZeroDivisionError /\ exists ticker, In (ticker, []) insider_data.
Proof.
  unfold F64.filter_significant_transactions. split.
  - destruct (empty_group_dec insider_data) as [(t & Hin)|Hne].
    + rewrite (filter_loop_empty_group _ t) by exact Hin.
      intros [= <-]. split; [reflexivity|now exists t].
    + rewrite filter_loop_on_nonempty by exact Hne. discriminate.
  - intros [-> (t & Hin)]. now apply (filter_loop_empty_group _ t).
Qed.

(** ** C3, as the program computes it: on a mapping whose groups are all
    non-empty, filter_significant_transactions returns a list that contains
    a ticker exactly when [sum] of its total_value is at least min_value,
    its number of distinct insider names at least min_insiders, and the
    double quotient of [sum] of its own_change by the number of its
    transactions at least min_own_change; [sum] is the rounded sum of the
    interpreter, not the exact one. *)
Theorem filter_significant_iff_rounded insider_data
    min_value min_insiders min_own_change :
  NoDup (dict_keys insider_data) ->
  (forall ticker transactions,
     In (ticker, transactions) insider_data -> transactions <> []) ->
  exists significant_stocks,
    F64.filter_significant_transactions py_sum insider_data
      min_value min_insiders min_own_change = F64.Ok significant_stocks /\
    forall ticker,
      In ticker significant_stocks <->
      exists transactions,
        dict_get insider_data ticker = Some transactions /\
        F64.significant py_sum min_value min_insiders min_own_change
          transactions.
Proof.
  intros Hnd Hne. unfold F64.filter_significant_transactions.
  rewrite filter_loop_on_nonempty by exact Hne. cbn [app].
  eexists. split; [reflexivity|]. intros ticker.
  rewrite in_map_iff. split.
  - intros ([t txs] & <- & Hin). apply filter_In in Hin as [Hin Hs].
    exists txs. split; [now apply In_dict_get|].
    now apply significant_rounded_iff.
  - intros (txs & Hget & Hs). exists (ticker, txs). split; [reflexivity|].
    apply filter_In. split; [now apply dict_get_In|].
    now apply significant_rounded_iff.
Qed.

(** ** X16: filter_significant_transactions returns a list exactly when no
    ticker has an empty transaction list, and the list is then the tickers
    whose group passes the three tests of the program, in the order of the
    mapping. *)
Theorem filter_returns_in_mapping_order insider_data
    min_value min_insiders min_own_change significant_stocks :
  F64.filter_significant_transactions py_sum insider_data
    min_value min_insiders min_own_change = F64.Ok significant_stocks <->
  (forall ticker transactions,
     In (ticker, transactions) insider_data -> transactions <> []) /\
  significant_stocks =
    map fst
      (filter
         (fun x => F64.significantb py_sum min_value min_insiders
                     min_own_change (snd x))
         insider_data).
Proof.
  unfold F64.filter_significant_transactions. split.
  - destruct (empty_group_dec insider_data) as [(t & Hin)|Hne].
    + now rewrite (filter_loop_empty_group _ t) by exact Hin.
    + rewrite filter_loop_on_nonempty by exact Hne. intros [= <-]. now split.
  - intros [Hne ->]. now rewrite filter_loop_on_nonempty.
Qed.

End FilterFacts.

(** C1 as the spec words it fails on the program: with a key whose list is
    empty the call raises, for either [sum]. *)
Lemma filter_empty_group_not_skipped :
  F64.filter_significant_transactions F64.sum_left F64.with_empty_group
    (F64.Int 100000) (F64.Int 2) (F64.Int 5)
    = F64.Err F64.ZeroDivisionError /\
  F64.filter_significant_transactions F64.sum_compensated
    F64.with_empty_group (F64.Int 100000) (F64.Int 2) (F64.Int 5)
    = F64.Err F64.ZeroDivisionError.
Proof. split; vm_compute; reflexivity. Qed.

Lemma filter_raises_iff_empty_group_witness :
  F64.filter_significant_transactions F64.sum_left F64.with_empty_group
    (F64.Int 100000) (F64.Int 2) (F64.Int 5)
    = F64.Err F64.ZeroDivisionError.
Proof.
  apply filter_raises_iff_empty_group. split; [reflexivity|].
  exists "AAPL". right. left. reflexivity.
Defined.

(** C3 as the spec words it fails on the program, for either [sum].  Two
    insiders whose changes are the doubles 0.1 and 1.9 pass a threshold of 1
    although the exact average of the two doubles is below 1.  Two insiders
    with changes 0.1 and 0.7 fail a threshold of 0.4 although the average of
    the decimals is 0.4, and the other two tests pass. *)
Lemma filter_average_not_exact :
  (F64.filter_significant_transactions F64.sum_left
     (F64.two_insiders 0.1 1.9) (F64.Int 100000) (F64.Int 2) (F64.Int 1)
     = F64.Ok ["MSFT"] /\
   F64.filter_significant_transactions F64.sum_compensated
     (F64.two_insiders 0.1 1.9) (F64.Int 100000) (F64.Int 2) (F64.Int 1)
     = F64.Ok ["MSFT"] /\
   exists a b,
     F64.value_of 0.1 = F64.Finite a /\
     F64.value_of 1.9 = F64.Finite b /\
     ((a + b) / 2 < 1)%Q) /\
  (F64.filter_significant_transactions F64.sum_left
     (F64.two_insiders 0.1 0.7) (F64.Int 100000) (F64.Int 2) (F64.Float 0.4)
     = F64.Ok [] /\
   F64.filter_significant_transactions F64.sum_compensated
     (F64.two_insiders 0.1 0.7) (F64.Int 100000) (F64.Int 2) (F64.Float 0.4)
     = F64.Ok [] /\
   (4 # 10 <= ((1 # 10) + (7 # 10)) / 2)%Q /\
   F64.ge (F64.Float (F64.sum_left [60000; 50000]%float)) (F64.Int 100000)
     = true /\
   F64.ge (F64.Int (F64.len_set ["Ann"; "Bob"])) (F64.Int 2) = true).
Proof.
  split.
  - split; [vm_compute; reflexivity|]. split; [vm_compute; reflexivity|].
    do 2 eexists. repeat split; vm_compute; reflexivity.
  - split; [vm_compute; reflexivity|]. split; [vm_compute; reflexivity|].
    split; [discriminate|]. split; vm_compute; reflexivity.
Qed.

Lemma filter_significant_iff_rounded_witness :
  exists significant_stocks,
    F64.filter_significant_transactions F64.sum_left
      (F64.two_insiders 0.1 0.7) (F64.Int 100000) (F64.Int 2) (F64.Float 0.4)
      = F64.Ok significant_stocks /\
    forall ticker,
      In ticker significant_stocks <->
      exists transactions,
        dict_get (F64.two_insiders 0.1 0.7) ticker = Some transactions /\
        F64.significant F64.sum_left (F64.Int 100000) (F64.Int 2)
          (F64.Float 0.4) transactions.
Proof.
  apply filter_significant_iff_rounded.
  - repeat constructor. simpl. intros [].
  - simpl. intros ticker transactions [[= <- <-]|[]]. discriminate.
Defined.

Lemma filter_returns_in_mapping_order_witness :
  F64.filter_significant_transactions F64.sum_compensated
    (F64.two_insiders 10 20) (F64.Int 100000) (F64.Int 2) (F64.Int 5)
    = F64.Ok ["MSFT"].
Proof.
  apply filter_returns_in_mapping_order. split.
  - simpl. intros ticker transactions [[= <- <-]|[]]. discriminate.
  - vm_compute. reflexivity.
Defined.

(** ** The sell trigger *)

(** The [with lock:] body of sell_stock never gets past record_trade. *)
Lemma sell_commit_held_f64 w s ticker q :
  F64.lock_held s = true ->
  exists s',
    F64.sell_commit w ticker q s = F64.Blocked s' /\
    F64.budget s' =
      (F64.budget s + F64.of_int q * F64.fetched w (F64.tick s) ticker)%float /\
    F64.trade_history s' = F64.trade_history s /\
    F64.positions s' = F64.positions s /\
    F64.submitted s' = F64.submitted s.
Proof.
  intros L. unfold F64.sell_commit.
  unfold F64.bind at 1. rewrite get_current_price_f64.
  unfold F64.bind at 1, F64.modify at 1.
  unfold F64.bind at 1. rewrite get_current_price_f64.
  unfold F64.bind at 1. rewrite record_trade_held_f64 by exact L.
  eexists. split; [reflexivity|]. now repeat split.
Qed.

Lemma sell_stock_submits_f64 w ticker info s :
  dict_get (F64.positions s) ticker = Some info ->
  F64.submitted (F64.final_state (F64.sell_stock w ticker s)) =
    F64.submitted s ++ [market_order ticker (F64.quantity info) "sell"].
Proof.
  intros Hget. unfold F64.sell_stock, F64.bind at 1, F64.get at 1.
  rewrite Hget.
  unfold F64.try_except, F64.bind at 1, F64.api_submit_order.
  destruct (F64.submit_order_ok _ _ _); [|reflexivity].
  unfold F64.with_lock.
  match goal with
  | |- context [F64.lock_held ?st] => destruct (F64.lock_held st) eqn:L
  end; [reflexivity|].
  match goal with
  | |- context [F64.sell_commit w ticker ?q ?st] =>
      destruct (sell_commit_held_f64 w st ticker q eq_refl)
        as (s' & Hrun & _ & _ & _ & Hs)
  end.
  rewrite Hrun. exact Hs.
Qed.

(** For a position examined by the monitor, sell_stock is called exactly
    when the rounded gain over the buy price and the rounded drop from the
    peak read before this quote both reach their thresholds. *)
Lemma monitor_position_decision_f64 numpy w g d ticker info s :
  (0 <? F64.buy_price info)%float = true ->
  (0 <? F64.highest_price info)%float = true ->
  F64.lock_held s = false ->
  dict_get (F64.positions s) ticker = Some info ->
  let cur := F64.fetched w (F64.tick s) ticker in
  let gain := ((cur - F64.buy_price info) / F64.buy_price info * 100)%float in
  let drop :=
    ((F64.highest_price info - cur) / F64.highest_price info * 100)%float in
  F64.monitor_position numpy w g d ticker info s =
    if (g <=? gain)%float && (d <=? drop)%float
    then F64.sell_stock w ticker (F64.after_peak_update ticker info cur s)
    else F64.Ret tt (F64.after_peak_update ticker info cur s).
Proof.
  intros Hb Hh L Hget cur gain drop. unfold F64.monitor_position.
  unfold F64.bind at 1. rewrite get_current_price_f64. fold cur.
  rewrite truediv_positive by exact Hb.
  unfold F64.bind at 1, F64.lift at 1, F64.ret at 1. fold gain.
  assert (Hupd :
    (if (F64.highest_price info <? cur)%float
     then F64.with_lock (F64.set_highest_price ticker cur)
     else F64.ret tt) (F64.next_tick s) =
    F64.Ret tt (F64.after_peak_update ticker info cur s)).
  { unfold F64.after_peak_update.
    destruct (F64.highest_price info <? cur)%float.
    - unfold F64.with_lock. cbn [F64.lock_held F64.next_tick]. rewrite L.
      unfold F64.set_highest_price, F64.bind, F64.get.
      cbn [F64.positions F64.set_lock_held F64.next_tick].
      rewrite Hget. unfold F64.modify.
      destruct s; cbn in *; subst; reflexivity.
    - reflexivity. }
  unfold F64.bind at 1. rewrite Hupd.
  destruct (g <=? gain)%float; [|reflexivity].
  rewrite truediv_positive by exact Hh.
  unfold F64.bind at 1, F64.lift, F64.ret. fold drop.
  destruct (d <=? drop)%float; reflexivity.
Qed.

Lemma after_peak_update_get_f64 ticker info cur s :
  dict_get (F64.positions s) ticker = Some info ->
  exists info',
    dict_get (F64.positions (F64.after_peak_update ticker info cur s)) ticker
      = Some info' /\
    F64.quantity info' = F64.quantity info.
Proof.
  intros Hget. unfold F64.after_peak_update.
  destruct (F64.highest_price info <? cur)%float.
  - eexists. cbn [F64.positions F64.set_positions].
    rewrite dict_get_set, String.eqb_refl. split; reflexivity.
  - exists info. now split.
Qed.

(** ** X20: for a position examined by the monitor, with buy price and peak
    above zero, one sell order for the whole quantity is handed to the
    broker when the gain over the buy price and the drop from the peak read
    before the current quote, both computed in doubles, reach their
    thresholds, and no order otherwise. *)
Theorem monitor_position_sells_iff numpy w gain_threshold drop_threshold
    ticker info s :
  (0 <? F64.buy_price info)%float = true ->
  (0 <? F64.highest_price info)%float = true ->
  F64.lock_held s = false ->
  dict_get (F64.positions s) ticker = Some info ->
  let cur := F64.fetched w (F64.tick s) ticker in
  let gain := ((cur - F64.buy_price info) / F64.buy_price info * 100)%float in
  let drop :=
    ((F64.highest_price info - cur) / F64.highest_price info * 100)%float in
  let s' :=
    F64.final_state
      (F64.monitor_position numpy w gain_threshold drop_threshold
         ticker info s) in
  ((gain_threshold <=? gain)%float = true /\
   (drop_threshold <=? drop)%float = true ->
     F64.submitted s' =
       F64.submitted s ++ [market_order ticker (F64.quantity info) "sell"]) /\
  (~ ((gain_threshold <=? gain)%float = true /\
      (drop_threshold <=? drop)%float = true) ->
     F64.submitted s' = F64.submitted s).
Proof.
  intros Hb Hh L Hget cur gain drop s'. subst s'.
  rewrite monitor_position_decision_f64 by assumption.
  fold cur gain drop.
  destruct (after_peak_update_get_f64 ticker info cur s Hget)
    as (info' & Hget' & Hq).
  assert (Hsub : F64.submitted (F64.after_peak_update ticker info cur s)
                 = F64.submitted s).
  { unfold F64.after_peak_update.
    destruct (F64.highest_price info <? cur)%float; reflexivity. }
  split.
  - intros [Hg Hd]. rewrite Hg, Hd. cbn [andb].
    rewrite (sell_stock_submits_f64 w ticker info') by exact Hget'.
    now rewrite Hsub, Hq.
  - intros Hn. destruct (gain_threshold <=? gain)%float eqn:Eg; [|exact Hsub].
    destruct (drop_threshold <=? drop)%float eqn:Ed; [|exact Hsub].
    exfalso. apply Hn. now split.
Qed.

(** Bought at 100, peak 150, quote 130: gain 30.0 and drop 13.3, one sell
    order.  Bought at 2, peak 3, quote 2.4: the gain is 19.999999999999996,
    below the threshold 20, and nothing is ordered. *)
Lemma monitor_position_sells_iff_witness :
  F64.submitted
    (F64.final_state
       (F64.monitor_position true (F64.accepting (F64.quotes 130)) 20 10
          "AAPL" F64.bought_100_peak_150
          (F64.holding 1000 [("AAPL", F64.bought_100_peak_150)])))
    = [market_order "AAPL" 40 "sell"] /\
  F64.submitted
    (F64.final_state
       (F64.monitor_position true (F64.accepting (F64.quotes 2.4)) 20 10
          "AAPL" F64.bought_2_peak_3
          (F64.holding 1000 [("AAPL", F64.bought_2_peak_3)])))
    = [].
Proof.
  split.
  - apply (proj1 (monitor_position_sells_iff true
                    (F64.accepting (F64.quotes 130)) 20 10 "AAPL"
                    F64.bought_100_peak_150
                    (F64.holding 1000 [("AAPL", F64.bought_100_peak_150)])
                    eq_refl eq_refl eq_refl eq_refl)).
    split; vm_compute; reflexivity.
  - apply (proj2 (monitor_position_sells_iff true
                    (F64.accepting (F64.quotes 2.4)) 20 10 "AAPL"
                    F64.bought_2_peak_3
                    (F64.holding 1000 [("AAPL", F64.bought_2_peak_3)])
                    eq_refl eq_refl eq_refl eq_refl)).
    vm_compute. intros [H _]. discriminate.
Defined.

(** ** index, the dashboard of app.py, in double precision *)

Lemma dict_get_notin {V : Type} (d : dict V) k :
  ~ In k (dict_keys d) -> dict_get d k = None.
Proof.
  intros H. destruct (dict_get d k) as [v|] eqn:E; [|reflexivity].
  exfalso. apply H. apply dict_get_In in E.
  change k with (fst (k, v)). now apply in_map.
Qed.

Section DashboardRows.

Variable numpy : bool.
Variable w : F64.world.
Variable py_round2 : float -> float.

Local Abbreviation shown := (F64.shown_row py_round2).

Lemma index_rows_spec items :
  NoDup (dict_keys items) ->
  (forall t p, In (t, p) items -> (0 <? F64.buy_price p)%float = true) ->
  forall acc s,
  exists view s',
    F64.index_rows numpy w py_round2 items acc s = F64.Ret view s' /\
    F64.untouched s s' /\ F64.lock_held s' = F64.lock_held s /\
    (forall i t p,
       nth_error items i = Some (t, p) ->
       dict_get view t = Some (shown p (F64.fetched w (F64.tick s + i) t))) /\
    (forall t, dict_get items t = None -> dict_get view t = dict_get acc t).
Proof.
  induction items as [|[k p] rest IH]; intros Hnd Hpos acc s.
  - exists acc, s. cbn. repeat split; try reflexivity.
    intros [|i] t p; discriminate.
  - inversion Hnd as [|? ? Hk Hnd']; subst.
    cbn [F64.index_rows]. unfold F64.bind at 1. rewrite get_current_price_f64.
    rewrite truediv_positive by (apply (Hpos k); now left).
    unfold F64.bind at 1, F64.lift, F64.ret at 1.
    destruct (IH Hnd' (fun t q H => Hpos t q (or_intror H))
                (dict_set acc k (shown p (F64.fetched w (F64.tick s) k)))
                (F64.next_tick s))
      as (view & s' & Hrun & Hun & Hl & Hrows & Hrest).
    exists view, s'. split; [exact Hrun|]. split; [exact Hun|].
    split; [exact Hl|]. split.
    + intros [|i] t q Hnth.
      * cbn in Hnth. injection Hnth as <- <-.
        rewrite Hrest by now apply dict_get_notin.
        now rewrite dict_get_set, String.eqb_refl, Nat.add_0_r.
      * cbn in Hnth. rewrite (Hrows i t q Hnth). cbn [F64.tick F64.next_tick].
        now rewrite Nat.add_succ_r.
    + intros t. cbn [dict_get].
      destruct (String.eqb_spec t k) as [->|Hne]; [discriminate|].
      intros Hget. rewrite (Hrest t Hget), dict_get_set.
      now destruct (String.eqb_spec t k).
Qed.

(** ** X18: with the lock free, unique keys and buy prices above zero,
    index answers with the budget, the trade history and one row per
    position, carrying its quantity and buy price, the price fetched for it
    (the i-th position's at the i-th interaction) and [round] of the gain
    over the buy price as the doubles give it; it hands no order to the
    broker and leaves budget, store and history as they were. *)
Theorem index_shows_every_position s :
  F64.lock_held s = false ->
  NoDup (dict_keys (F64.positions s)) ->
  (forall t p, In (t, p) (F64.positions s) ->
               (0 <? F64.buy_price p)%float = true) ->
  exists view s',
    F64.index numpy w py_round2 s =
      F64.Ret (F64.budget s, view, F64.trade_history s) s' /\
    F64.untouched s s' /\ F64.lock_held s' = false /\
    (forall i t p,
       nth_error (F64.positions s) i = Some (t, p) ->
       dict_get view t =
         Some {| F64.v_quantity := F64.quantity p;
                 F64.v_buy_price := F64.buy_price p;
                 F64.v_current_price := F64.fetched w (F64.tick s + i) t;
                 F64.v_gain_loss :=
                   py_round2
                     ((F64.fetched w (F64.tick s + i) t - F64.buy_price p) /
                      F64.buy_price p * 100)%float |}) /\
    (forall t, dict_get (F64.positions s) t = None -> dict_get view t = None).
Proof.
  intros L Hnd Hpos.
  destruct (index_rows_spec (F64.positions s) Hnd Hpos []
              (F64.set_lock_held true s))
    as (view & s1 & Hrun & (B1 & P1 & H1 & S1) & L1 & Hrows & Hrest).
  exists view, (F64.set_lock_held false (F64.set_lock_held false s1)).
  split.
  - unfold F64.index, F64.bind at 1, F64.with_lock at 1. rewrite L.
    unfold F64.bind at 1, F64.get at 1. cbn [F64.positions F64.set_lock_held].
    cbn [F64.positions F64.set_lock_held] in Hrun. rewrite Hrun.
    unfold F64.with_lock, F64.bind, F64.get, F64.ret.
    cbn [F64.lock_held F64.set_lock_held].
    cbn [F64.budget F64.trade_history F64.set_lock_held] in B1, H1.
    cbn [F64.budget F64.trade_history F64.set_lock_held]. now rewrite B1, H1.
  - cbn [F64.budget F64.positions F64.trade_history F64.submitted
         F64.set_lock_held F64.lock_held] in *.
    repeat split; assumption.
Qed.

End DashboardRows.

(** Two positions whose exact gain is 9.375: the doubles give
    9.374999999999991 for one and 9.375000000000009 for the other, so the
    dashboard rounds them to different cents. *)
Lemma index_shows_every_position_witness :
  exists view s',
    F64.index true (F64.accepting F64.quotes_small) (fun x => x) F64.two_small
      = F64.Ret (1000%float, view, []) s' /\
    dict_get view "AAA" =
      Some {| F64.v_quantity := 10; F64.v_buy_price := 0.32;
              F64.v_current_price := 0.35;
              F64.v_gain_loss := 9.374999999999991 |} /\
    dict_get view "BBB" =
      Some {| F64.v_quantity := 10; F64.v_buy_price := 0.96;
              F64.v_current_price := 1.05;
              F64.v_gain_loss := 9.375000000000009 |}.
Proof.
  destruct (index_shows_every_position true (F64.accepting F64.quotes_small)
              (fun x => x) F64.two_small eq_refl)
    as (view & s' & Hrun & _ & _ & Hrows & _).
  - repeat constructor; simpl; intros H; decompose [or] H;
      discriminate || contradiction.
  - simpl. intros t p H. decompose [or] H; try contradiction;
      match goal with E : (_, _) = (_, _) |- _ => injection E as <- <- end;
      reflexivity.
  - exists view, s'. split; [exact Hrun|]. split.
    + exact (Hrows 0%nat "AAA" _ eq_refl).
    + exact (Hrows 1%nat "BBB" _ eq_refl).
Defined.
